(** * qtubuntu, the Mir client platform plugin: [UbuntuWindow]

    A shallow embedding of [src/ubuntumirclient/window.cpp] and the
    properties of its window/surface bridging logic.

    - C++ [int] values are integers of [Z] kept in the 32-bit signed range;
      every arithmetic operation is followed by [wrap_int].
    - The members of [UbuntuWindowPrivate] and the rectangle that the
      [QPlatformWindow] base class stores are the fields of one record.
    - Each member function is a computation in a state-and-trace monad: the
      trace lists the mutex operations, the accesses to the window's members
      and the calls into Mir, EGL and the toolkit, in program order.
    - The logging macros [LOG] and [DLOG] are not part of the model. *)

From Stdlib Require Import ZArith List Bool Ascii String Lia.
Import ListNotations.
Local Open Scope Z_scope.

(** ** C++ [int] *)

Module CInt.

Definition INT_MIN : Z := - 2 ^ 31.
Definition INT_MAX : Z := 2 ^ 31 - 1.

(** Two's complement reduction to 32 bits. *)
Definition wrap_int (z : Z) : Z := (z + 2 ^ 31) mod 2 ^ 32 - 2 ^ 31.

Definition is_int (z : Z) : Prop := INT_MIN <= z <= INT_MAX.

Definition add (a b : Z) : Z := wrap_int (a + b).
Definition sub (a b : Z) : Z := wrap_int (a - b).
Definition mul (a b : Z) : Z := wrap_int (a * b).

End CInt.

Import CInt.

(** ** Qt value types

    [QSize], [QPoint] and [QRect] belong to Qt, not to this repository; the
    definitions follow the inline members of Qt 5's [qsize.h] and [qrect.h].
    A [QRect] stores its two corners, both inclusive. *)

Record QSize : Type := mkQSize { wd : Z; ht : Z }.

Record QPoint : Type := mkQPoint { xp : Z; yp : Z }.

Record QRect : Type := mkQRect { x1 : Z; y1 : Z; x2 : Z; y2 : Z }.

Module Rect.

(** [QRect()] *)
Definition null : QRect := mkQRect 0 0 (-1) (-1).

(** [QRect(int left, int top, int width, int height)] *)
Definition make (l t w h : Z) : QRect :=
  mkQRect l t (sub (add l w) 1) (sub (add t h) 1).

(** [QRect(const QPoint &topLeft, const QSize &size)] *)
Definition of_point_size (p : QPoint) (s : QSize) : QRect :=
  mkQRect (xp p) (yp p) (sub (add (xp p) (wd s)) 1) (sub (add (yp p) (ht s)) 1).

Definition x (r : QRect) : Z := x1 r.
Definition y (r : QRect) : Z := y1 r.
Definition width (r : QRect) : Z := add (sub (x2 r) (x1 r)) 1.
Definition height (r : QRect) : Z := add (sub (y2 r) (y1 r)) 1.
Definition size (r : QRect) : QSize := mkQSize (width r) (height r).

(** [setY] moves the top edge and leaves the bottom edge where it is. *)
Definition setY (ay : Z) (r : QRect) : QRect :=
  mkQRect (x1 r) ay (x2 r) (y2 r).
Definition setWidth (w : Z) (r : QRect) : QRect :=
  mkQRect (x1 r) (y1 r) (sub (add (x1 r) w) 1) (y2 r).
Definition setHeight (h : Z) (r : QRect) : QRect :=
  mkQRect (x1 r) (y1 r) (x2 r) (sub (add (y1 r) h) 1).

(** [operator==] on rectangles. *)
Definition eqb (a b : QRect) : bool :=
  (x1 a =? x1 b) && (x2 a =? x2 b) && (y1 a =? y1 b) && (y2 a =? y2 b).

End Rect.

(** [QPoint()] *)
Definition QPoint_null : QPoint := mkQPoint 0 0.

(** ** Enumerations *)

(** [Qt::WindowState]. *)
Inductive WindowState : Type :=
| WindowNoState
| WindowMinimized
| WindowMaximized
| WindowFullScreen
| WindowActive.

Definition WindowState_eqb (a b : WindowState) : bool :=
  match a, b with
  | WindowNoState, WindowNoState
  | WindowMinimized, WindowMinimized
  | WindowMaximized, WindowMaximized
  | WindowFullScreen, WindowFullScreen
  | WindowActive, WindowActive => true
  | _, _ => false
  end.

(** [MirSurfaceState], the values this file uses. *)
Inductive MirSurfaceState : Type :=
| mir_surface_state_restored
| mir_surface_state_minimized
| mir_surface_state_maximized
| mir_surface_state_fullscreen.

(** [MirPixelFormat] of the Mir client API. *)
Inductive MirPixelFormat : Type :=
| mir_pixel_format_invalid
| mir_pixel_format_abgr_8888
| mir_pixel_format_xbgr_8888
| mir_pixel_format_argb_8888
| mir_pixel_format_xrgb_8888
| mir_pixel_format_bgr_888
| mir_pixel_format_rgb_888
| mir_pixel_format_rgb_565
| mir_pixel_format_rgba_5551
| mir_pixel_format_rgba_4444.

Definition MirPixelFormat_eqb (a b : MirPixelFormat) : bool :=
  match a, b with
  | mir_pixel_format_invalid, mir_pixel_format_invalid
  | mir_pixel_format_abgr_8888, mir_pixel_format_abgr_8888
  | mir_pixel_format_xbgr_8888, mir_pixel_format_xbgr_8888
  | mir_pixel_format_argb_8888, mir_pixel_format_argb_8888
  | mir_pixel_format_xrgb_8888, mir_pixel_format_xrgb_8888
  | mir_pixel_format_bgr_888, mir_pixel_format_bgr_888
  | mir_pixel_format_rgb_888, mir_pixel_format_rgb_888
  | mir_pixel_format_rgb_565, mir_pixel_format_rgb_565
  | mir_pixel_format_rgba_5551, mir_pixel_format_rgba_5551
  | mir_pixel_format_rgba_4444, mir_pixel_format_rgba_4444 => true
  | _, _ => false
  end.

(** The anonymous-namespace helper of [window.cpp]; [WindowActive] is the
    enumerator that reaches the [default] label. *)
Definition qtWindowStateToMirSurfaceState (state : WindowState) : MirSurfaceState :=
  match state with
  | WindowNoState => mir_surface_state_restored
  | WindowFullScreen => mir_surface_state_fullscreen
  | WindowMaximized => mir_surface_state_maximized
  | WindowMinimized => mir_surface_state_minimized
  | WindowActive => mir_surface_state_restored
  end.

(** ** Collaborators

    What the window asks of the objects it is handed.  None of them is
    defined in this repository's sources; each record holds the answers the
    collaborator gives. *)

(** [QSurfaceFormat]: only the alpha size is consulted. *)
Record QSurfaceFormat : Type := mkFormat { alphaBufferSize : Z }.

(** The [QWindow] behind the platform window. *)
Record QWindow : Type := mkQWindow {
  requestedFormat : QSurfaceFormat;
  windowState : WindowState;
  window_geometry : QRect;
  (** [title()], [None] when [isNull()] *)
  title : option string;
  (** [property("role")], [None] when the variant is invalid, otherwise
      its [toUInt()] *)
  role_property : option Z
}.

Record UbuntuScreen : Type := mkScreen {
  screen_geometry : QRect;
  availableGeometry : QRect
}.

(** The compositor session. *)
Record MirConnection : Type := mkConnection {
  (** what [mir_connection_get_available_surface_formats] writes *)
  available_surface_formats : list MirPixelFormat;
  (** the surface handed to [surfaceCreateCallback] *)
  created_surface : nat;
  (** what [mir_surface_get_parameters] reports, width and height *)
  parameters_width : Z;
  parameters_height : Z
}.

(** The process environment and the EGL implementation. *)
Record Platform : Type := mkPlatform {
  (** the variable [GRID_UNIT_PX], [None] when unset *)
  GRID_UNIT_PX : option string;
  (** the format [q_glFormatFromConfig] returns *)
  config_format : QSurfaceFormat;
  (** the surface [eglCreateWindowSurface] returns *)
  egl_window_surface : nat;
  (** the width in bits of [quintptr], the type behind [WId] *)
  pointer_bits : Z
}.

(** ** Traces *)

(** The members of the window. *)
Inductive Field : Type :=
| F_screen | F_eglSurface | F_format | F_id | F_state | F_connection
| F_surface | F_bufferSize | F_exposed | F_resizeCatchUpAttempts
| F_frameNumber | F_geometry.

(** Calls that leave the window object. *)
Inductive Call : Type :=
| qWarning (msg : string)
| printf (msg : string)
| mir_connection_create_spec_for_input_method (width height : Z) (f : MirPixelFormat)
| mir_connection_create_spec_for_normal_surface (width height : Z) (f : MirPixelFormat)
| mir_surface_spec_set_name (name : string)
(** [mir_wait_for(mir_surface_create(spec, surfaceCreateCallback, this))] *)
| mir_surface_create
| mir_surface_set_event_handler
| mir_surface_spec_release
| eglCreateWindowSurface
(** [mir_wait_for(mir_surface_set_state(d->surface, st))] *)
| mir_surface_set_state (st : MirSurfaceState)
| mir_surface_get_parameters
(** [QWindowSystemInterface::handleGeometryChange(window(), newRect, oldRect)] *)
| handleGeometryChange (newRect oldRect : QRect)
(** [QWindowSystemInterface::handleExposeEvent(window(), region)] *)
| handleExposeEvent (region : QRect)
(** [QWindowSystemInterface::flushWindowSystemEvents()] *)
| flushWindowSystemEvents.

Inductive Event : Type :=
| MutexLock           (* [QMutex::lock] on [d->mutex] *)
| MutexUnlock         (* [QMutex::unlock] on [d->mutex] *)
| Fetch (f : Field)   (* a member is read *)
| Assign (f : Field)  (* a member is written *)
| Invoke (c : Call).

Definition Trace : Type := list Event.

(** The calls of a trace, in order. *)
Fixpoint calls (t : Trace) : list Call :=
  match t with
  | [] => []
  | Invoke c :: t' => c :: calls t'
  | _ :: t' => calls t'
  end.

(** ** The state-and-trace monad *)

Definition M (S A : Type) : Type := S -> A * S * Trace.

Definition ret {S A : Type} (a : A) : M S A := fun s => (a, s, []).

Definition bind {S A B : Type} (m : M S A) (k : A -> M S B) : M S B :=
  fun s =>
    let '(a, s1, t1) := m s in
    let '(b, s2, t2) := k a s1 in
    (b, s2, t1 ++ t2).

Declare Scope monad_scope.
Delimit Scope monad_scope with monad.
Notation "x <- m ;; k" := (bind m (fun x => k))
  (at level 61, m at next level, right associativity) : monad_scope.
Notation "m ;; k" := (bind m (fun _ => k))
  (at level 61, right associativity) : monad_scope.
Local Open Scope monad_scope.

Definition call {S : Type} (c : Call) : M S unit :=
  fun s => (tt, s, [Invoke c]).

(** Reading what is not a data member of the window. *)
Definition gets {S A : Type} (proj : S -> A) : M S A :=
  fun s => (proj s, s, []).

Definition fetch {S A : Type} (f : Field) (proj : S -> A) : M S A :=
  fun s => (proj s, s, [Fetch f]).

Definition assign {S : Type} (f : Field) (upd : S -> S) : M S unit :=
  fun s => (tt, upd s, [Assign f]).

Definition result {S A : Type} (r : A * S * Trace) : A := fst (fst r).
Definition final {S A : Type} (r : A * S * Trace) : S := snd (fst r).
Definition trace {S A : Type} (r : A * S * Trace) : Trace := snd r.

(** [QMutexLocker(&d->mutex);] is an expression statement.  It constructs an
    unnamed temporary, which locks the mutex, and the temporary is destroyed,
    unlocking the mutex, when that statement ends. *)
Definition QMutexLocker_temporary {S : Type} : M S unit :=
  fun s => (tt, s, [MutexLock; MutexUnlock]).

(** ** [UbuntuWindowPrivate::panelHeight] *)

Module QByteArray.

(** [QByteArray::toInt] is Qt's.  Base 10: white space, an optional sign, one
    or more decimal digits and then the end of the array; the value must fit
    an [int].  On failure the value is 0 and [ok] is false. *)

Definition isspace (c : ascii) : bool :=
  let n := Z.of_N (N_of_ascii c) in (n =? 32) || ((9 <=? n) && (n <=? 13)).

Definition digit (c : ascii) : option Z :=
  let n := Z.of_N (N_of_ascii c) in
  if (48 <=? n) && (n <=? 57) then Some (n - 48) else None.

Fixpoint skip_space (s : string) : string :=
  match s with
  | String c r => if isspace c then skip_space r else s
  | EmptyString => s
  end.

Fixpoint digits (acc : Z) (s : string) : option Z :=
  match s with
  | EmptyString => Some acc
  | String c r =>
      match digit c with
      | Some v => digits (acc * 10 + v) r
      | None => None
      end
  end.

Definition unsigned_digits (s : string) : option Z :=
  match s with
  | EmptyString => None
  | _ => digits 0 s
  end.

Definition toLongLong (s : string) : option Z :=
  match skip_space s with
  | String "-"%char r => option_map Z.opp (unsigned_digits r)
  | String "+"%char r => unsigned_digits r
  | r => unsigned_digits r
  end.

Definition toInt (s : string) : Z * bool :=
  match toLongLong s with
  | Some v => if (INT_MIN <=? v) && (v <=? INT_MAX) then (v, true) else (0, false)
  | None => (0, false)
  end.

Definition isEmpty (s : string) : bool :=
  match s with EmptyString => true | _ => false end.

End QByteArray.

(** [qgetenv]: the empty array when the variable is not set. *)
Definition qgetenv (var : option string) : string :=
  match var with Some s => s | None => EmptyString end.

Definition defaultGridUnit : Z := 8.

(** Lines 180 to 188: the grid unit read from the environment. *)
Definition gridUnit (p : Platform) : Z :=
  let gridUnitString := qgetenv (GRID_UNIT_PX p) in
  if QByteArray.isEmpty gridUnitString then defaultGridUnit
  else
    let '(v, ok) := QByteArray.toInt gridUnitString in
    if ok then v else defaultGridUnit.

(** [qFloor(static_cast<qreal>(gridUnit) / defaultGridUnit)].  An [int]
    divided by 8 is exact in a [double], so the floor of the quotient is
    the floor of the rational quotient, which [Z.div] computes. *)
Definition densityPixelRatio_floor (g : Z) : Z := g / defaultGridUnit.

Definition panelHeight (p : Platform) : Z :=
  let g := gridUnit p in
  add (mul g 3) (mul (densityPixelRatio_floor g) 2).

(** ** [getPixelFormat] *)

Definition formatsCount : nat := 5.

Definition formats : list MirPixelFormat :=
  [ mir_pixel_format_argb_8888; mir_pixel_format_abgr_8888;
    mir_pixel_format_xrgb_8888; mir_pixel_format_xbgr_8888;
    mir_pixel_format_bgr_888 ].

(** The inner loop, over [j]: is [f] among the available formats? *)
Fixpoint is_available (f : MirPixelFormat) (availableFormats : list MirPixelFormat) : bool :=
  match availableFormats with
  | [] => false
  | a :: rest => if MirPixelFormat_eqb f a then true else is_available f rest
  end.

(** The outer loop, over the candidates from index [i] on. *)
Fixpoint first_available (candidates availableFormats : list MirPixelFormat)
  : option MirPixelFormat :=
  match candidates with
  | [] => None
  | f :: rest =>
      if is_available f availableFormats then Some f
      else first_available rest availableFormats
  end.

Definition getPixelFormat {S : Type} (connection : MirConnection) (hasAlpha : bool)
  : M S MirPixelFormat :=
  let availableFormats := available_surface_formats connection in
  match first_available (skipn (if hasAlpha then 0 else 2)%nat formats) availableFormats with
  | Some f => ret f
  | None =>
      call (qWarning "[ubuntumirclient QPA] can't find a valid pixel format") ;;
      ret mir_pixel_format_invalid
  end.

(** ** The window

    The members of [UbuntuWindowPrivate] (the [d] pointer), the [QWindow]
    the platform window was built for, and the rectangle kept by the
    [QPlatformWindow] base class, which [geometry()] returns and
    [QPlatformWindow::setGeometry] replaces.  The [input] and [clipboard]
    pointers are used by no function below.  [EGL_NO_SURFACE] and the null
    surface pointer are [None].  [d_frameNumber] exists in debug builds only. *)
Record UbuntuWindow : Type := mkWindow {
  window : QWindow;
  geometry : QRect;
  d_screen : UbuntuScreen;
  d_eglSurface : option nat;
  d_format : QSurfaceFormat;
  d_id : Z;
  d_state : WindowState;
  d_connection : MirConnection;
  d_surface : option nat;
  d_bufferSize : QSize;
  d_exposed : bool;
  d_resizeCatchUpAttempts : Z;
  d_frameNumber : Z
}.

(** Assignment to one member. *)
Definition set_geometry (v : QRect) (w : UbuntuWindow) : UbuntuWindow :=
  mkWindow (window w) v (d_screen w) (d_eglSurface w) (d_format w) (d_id w)
    (d_state w) (d_connection w) (d_surface w) (d_bufferSize w) (d_exposed w)
    (d_resizeCatchUpAttempts w) (d_frameNumber w).

Definition set_d_eglSurface (v : option nat) (w : UbuntuWindow) : UbuntuWindow :=
  mkWindow (window w) (geometry w) (d_screen w) v (d_format w) (d_id w)
    (d_state w) (d_connection w) (d_surface w) (d_bufferSize w) (d_exposed w)
    (d_resizeCatchUpAttempts w) (d_frameNumber w).

Definition set_d_format (v : QSurfaceFormat) (w : UbuntuWindow) : UbuntuWindow :=
  mkWindow (window w) (geometry w) (d_screen w) (d_eglSurface w) v (d_id w)
    (d_state w) (d_connection w) (d_surface w) (d_bufferSize w) (d_exposed w)
    (d_resizeCatchUpAttempts w) (d_frameNumber w).

Definition set_d_state (v : WindowState) (w : UbuntuWindow) : UbuntuWindow :=
  mkWindow (window w) (geometry w) (d_screen w) (d_eglSurface w) (d_format w)
    (d_id w) v (d_connection w) (d_surface w) (d_bufferSize w) (d_exposed w)
    (d_resizeCatchUpAttempts w) (d_frameNumber w).

Definition set_d_surface (v : option nat) (w : UbuntuWindow) : UbuntuWindow :=
  mkWindow (window w) (geometry w) (d_screen w) (d_eglSurface w) (d_format w)
    (d_id w) (d_state w) (d_connection w) v (d_bufferSize w) (d_exposed w)
    (d_resizeCatchUpAttempts w) (d_frameNumber w).

Definition set_d_bufferSize (v : QSize) (w : UbuntuWindow) : UbuntuWindow :=
  mkWindow (window w) (geometry w) (d_screen w) (d_eglSurface w) (d_format w)
    (d_id w) (d_state w) (d_connection w) (d_surface w) v (d_exposed w)
    (d_resizeCatchUpAttempts w) (d_frameNumber w).

Definition set_d_exposed (v : bool) (w : UbuntuWindow) : UbuntuWindow :=
  mkWindow (window w) (geometry w) (d_screen w) (d_eglSurface w) (d_format w)
    (d_id w) (d_state w) (d_connection w) (d_surface w) (d_bufferSize w) v
    (d_resizeCatchUpAttempts w) (d_frameNumber w).

Definition set_d_resizeCatchUpAttempts (v : Z) (w : UbuntuWindow) : UbuntuWindow :=
  mkWindow (window w) (geometry w) (d_screen w) (d_eglSurface w) (d_format w)
    (d_id w) (d_state w) (d_connection w) (d_surface w) (d_bufferSize w)
    (d_exposed w) v (d_frameNumber w).

Definition set_d_frameNumber (v : Z) (w : UbuntuWindow) : UbuntuWindow :=
  mkWindow (window w) (geometry w) (d_screen w) (d_eglSurface w) (d_format w)
    (d_id w) (d_state w) (d_connection w) (d_surface w) (d_bufferSize w)
    (d_exposed w) (d_resizeCatchUpAttempts w) v.

(** ** Member functions *)

(** [QPlatformWindow::setGeometry] stores the rectangle. *)
Definition QPlatformWindow_setGeometry (rect : QRect) : M UbuntuWindow unit :=
  assign F_geometry (set_geometry rect).

(** [QPlatformWindow::screen()]; the plugin hands every window the screen
    kept in [d->screen]. *)
Definition screen : M UbuntuWindow UbuntuScreen := gets d_screen.

(** The operand [d->exposed ? QRect(QPoint(), geometry().size()) : QRect()],
    written out at each call of [handleExposeEvent]. *)
Definition exposedRegion : M UbuntuWindow QRect :=
  e <- fetch F_exposed d_exposed ;;
  if e then
    g <- fetch F_geometry geometry ;;
    ret (Rect.of_point_size QPoint_null (Rect.size g))
  else ret Rect.null.

(** [d->bufferSize.width() != width || d->bufferSize.height() != height] *)
Definition bufferSizeDiffers (width height : Z) : M UbuntuWindow bool :=
  bw <- fetch F_bufferSize (fun w => wd (d_bufferSize w)) ;;
  if negb (bw =? width) then ret true
  else
    bh <- fetch F_bufferSize (fun w => ht (d_bufferSize w)) ;;
    ret (negb (bh =? height)).

Definition moveResize (rect : QRect) : M UbuntuWindow unit := ret tt.

Definition handleSurfaceResize (width height : Z) : M UbuntuWindow unit :=
  QMutexLocker_temporary ;;
  differs <- bufferSizeDiffers width height ;;
  if differs then
    assign F_resizeCatchUpAttempts (set_d_resizeCatchUpAttempts 2) ;;
    r <- exposedRegion ;;
    call (handleExposeEvent r) ;;
    call flushWindowSystemEvents
  else ret tt.

Definition handleSurfaceExposeChange (exposed : bool) : M UbuntuWindow unit :=
  QMutexLocker_temporary ;;
  e <- fetch F_exposed d_exposed ;;
  if negb (Bool.eqb e exposed) then
    assign F_exposed (set_d_exposed exposed) ;;
    r <- exposedRegion ;;
    call (handleExposeEvent r) ;;
    call flushWindowSystemEvents
  else ret tt.

Definition setWindowState (state : WindowState) : M UbuntuWindow unit :=
  QMutexLocker_temporary ;;
  cur <- fetch F_state d_state ;;
  if WindowState_eqb state cur then ret tt
  else
    _ <- fetch F_surface d_surface ;;
    call (mir_surface_set_state (qtWindowStateToMirSurfaceState state)) ;;
    assign F_state (set_d_state state).

Definition setGeometry (rect : QRect) : M UbuntuWindow unit :=
  doMoveResize <-
    (QMutexLocker_temporary ;;
     QPlatformWindow_setGeometry rect ;;
     st <- fetch F_state d_state ;;
     if negb (WindowState_eqb st WindowFullScreen) then
       st' <- fetch F_state d_state ;;
       ret (negb (WindowState_eqb st' WindowMaximized))
     else ret false) ;;
  if doMoveResize then moveResize rect else ret tt.

Definition setVisible (visible : bool) : M UbuntuWindow unit :=
  QMutexLocker_temporary ;;
  (if visible then
     _ <- fetch F_surface d_surface ;;
     st <- fetch F_state d_state ;;
     call (mir_surface_set_state (qtWindowStateToMirSurfaceState st))
   else
     _ <- fetch F_surface d_surface ;;
     call (mir_surface_set_state mir_surface_state_minimized)) ;;
  r <- exposedRegion ;;
  call (handleExposeEvent r) ;;
  call flushWindowSystemEvents.

(** [WId] is [quintptr]: the conversion from [int] reduces modulo two to the
    pointer width. *)
Definition WId_of_int (bits : Z) (v : Z) : Z := v mod 2 ^ bits.

Definition winId (w : UbuntuWindow) : Z := d_id w.

Section Build.

(** Whether the translation unit is compiled with [QT_NO_DEBUG] defined. *)
Variable QT_NO_DEBUG : bool.

Definition onBuffersSwapped_threadSafe (newBufferWidth newBufferHeight : Z)
  : M UbuntuWindow unit :=
  QMutexLocker_temporary ;;
  let sizeKnown := (0 <? newBufferWidth) && (0 <? newBufferHeight) in
  (if QT_NO_DEBUG then ret tt
   else
     n <- fetch F_frameNumber d_frameNumber ;;
     assign F_frameNumber (set_d_frameNumber (add n 1))) ;;
  changed <- (if sizeKnown then bufferSizeDiffers newBufferWidth newBufferHeight
              else ret false) ;;
  if changed then
    assign F_resizeCatchUpAttempts (set_d_resizeCatchUpAttempts 0) ;;
    assign F_bufferSize
      (fun w => set_d_bufferSize (mkQSize newBufferWidth (ht (d_bufferSize w))) w) ;;
    assign F_bufferSize
      (fun w => set_d_bufferSize (mkQSize (wd (d_bufferSize w)) newBufferHeight) w) ;;
    g <- fetch F_geometry geometry ;;
    bw <- fetch F_bufferSize (fun w => wd (d_bufferSize w)) ;;
    bh <- fetch F_bufferSize (fun w => ht (d_bufferSize w)) ;;
    let newGeometry := Rect.setHeight bh (Rect.setWidth bw g) in
    QPlatformWindow_setGeometry newGeometry ;;
    call (handleGeometryChange newGeometry Rect.null)
  else
    attempts <- fetch F_resizeCatchUpAttempts d_resizeCatchUpAttempts ;;
    if 0 <? attempts then
      n <- fetch F_resizeCatchUpAttempts d_resizeCatchUpAttempts ;;
      assign F_resizeCatchUpAttempts (set_d_resizeCatchUpAttempts (sub n 1)) ;;
      r <- exposedRegion ;;
      call (handleExposeEvent r)
    else ret tt.

End Build.

(** The callback [mir_surface_create] runs before [mir_wait_for] returns. *)
Definition surfaceCreateCallback (surface : nat) : M UbuntuWindow unit :=
  assign F_surface (set_d_surface (Some surface)) ;;
  call mir_surface_set_event_handler.

Definition SCREEN_KEYBOARD_ROLE : Z := 7.

(** Lines 244 to 265: the rectangle the surface is asked for. *)
Definition surfaceGeometry (panelHeight : Z) : M UbuntuWindow QRect :=
  st <- fetch F_state d_state ;;
  if WindowState_eqb st WindowFullScreen then
    call (printf "UbuntuWindow - fullscreen geometry\n") ;;
    scr <- screen ;;
    ret (screen_geometry scr)
  else
    st' <- fetch F_state d_state ;;
    if WindowState_eqb st' WindowMaximized then
      call (printf "UbuntuWindow - maximized geometry\n") ;;
      scr <- screen ;;
      ret (Rect.setY panelHeight (availableGeometry scr))
    else
      call (printf "UbuntuWindow - regular geometry\n") ;;
      g <- fetch F_geometry geometry ;;
      ret (Rect.setY panelHeight g).

Definition createWindow (p : Platform) : M UbuntuWindow unit :=
  q <- gets window ;;
  let role := match role_property q with Some r => wrap_int r | None => 1 end in
  let title := match title q with Some t => t | None => "Window 1"%string end in
  let panelHeight := panelHeight p in
  geometry <- surfaceGeometry panelHeight ;;
  _ <- fetch F_screen d_screen ;;
  fmt <- fetch F_format d_format ;;
  let needsAlpha := 0 <? alphaBufferSize fmt in
  assign F_format (set_d_format (config_format p)) ;;
  connection <- fetch F_connection d_connection ;;
  pixelFormat <- getPixelFormat connection needsAlpha ;;
  call (if role =? SCREEN_KEYBOARD_ROLE
        then mir_connection_create_spec_for_input_method
               (Rect.width geometry) (Rect.height geometry) pixelFormat
        else mir_connection_create_spec_for_normal_surface
               (Rect.width geometry) (Rect.height geometry) pixelFormat) ;;
  call (mir_surface_spec_set_name title) ;;
  call mir_surface_create ;;
  surfaceCreateCallback (created_surface connection) ;;
  call mir_surface_spec_release ;;
  _ <- fetch F_surface d_surface ;;
  call eglCreateWindowSurface ;;
  assign F_eglSurface (set_d_eglSurface (Some (egl_window_surface p))) ;;
  st <- fetch F_state d_state ;;
  (if WindowState_eqb st WindowFullScreen then
     _ <- fetch F_surface d_surface ;;
     call (mir_surface_set_state mir_surface_state_fullscreen)
   else ret tt) ;;
  _ <- fetch F_surface d_surface ;;
  call mir_surface_get_parameters ;;
  let geometry :=
    Rect.setHeight (parameters_height connection)
      (Rect.setWidth (parameters_width connection) geometry) in
  assign F_bufferSize (set_d_bufferSize (Rect.size geometry)) ;;
  call (handleGeometryChange geometry Rect.null) ;;
  QPlatformWindow_setGeometry geometry.

(** ** Construction *)

(** The function-local [static int id = 1] of the constructor. *)
Record Process : Type := mkProcess { static_id : Z }.

Definition process_start : Process := mkProcess 1.

(** [QSize()] *)
Definition QSize_null : QSize := mkQSize (-1) (-1).

(** [UbuntuWindow::UbuntuWindow] *)
Definition UbuntuWindow_new (p : Platform) (w : QWindow) (screen : UbuntuScreen)
    (connection : MirConnection) : M Process UbuntuWindow :=
  fun proc =>
    let id := static_id proc in
    let proc' := mkProcess (add id 1) in
    let rect :=
      if negb (Rect.eqb (window_geometry w) (screen_geometry screen))
      then window_geometry w else availableGeometry screen in
    let this :=
      mkWindow w rect screen None (requestedFormat w)
        (WId_of_int (pointer_bits p) id) (windowState w) connection None
        QSize_null true 0 0 in
    let '(_, this', t) := createWindow p this in
    (this', proc', t).

(** The windows a process constructs, one after the other. *)
Record Request : Type := mkRequest {
  req_platform : Platform;
  req_window : QWindow;
  req_screen : UbuntuScreen;
  req_connection : MirConnection
}.

Fixpoint construct (requests : list Request) (proc : Process)
  : list UbuntuWindow * Process :=
  match requests with
  | [] => ([], proc)
  | r :: rest =>
      let '(w, proc', _) :=
        UbuntuWindow_new (req_platform r) (req_window r) (req_screen r)
          (req_connection r) proc in
      let '(ws, proc'') := construct rest proc' in
      (w :: ws, proc'')
  end.

(** ** Lock discipline on a trace *)

(** The members the lock is there for. *)
Definition guarded (f : Field) : bool :=
  match f with
  | F_state | F_bufferSize | F_exposed | F_resizeCatchUpAttempts => true
  | _ => false
  end.

(** Does every access to a guarded member happen while the mutex is held?
    [held] tells whether it is held before the first event. *)
Fixpoint accesses_locked (held : bool) (t : Trace) : bool :=
  match t with
  | [] => true
  | MutexLock :: t' => accesses_locked true t'
  | MutexUnlock :: t' => accesses_locked false t'
  | Fetch f :: t' | Assign f :: t' =>
      (negb (guarded f) || held) && accesses_locked held t'
  | Invoke _ :: t' => accesses_locked held t'
  end.

(** The guarded accesses made while the mutex is not held. *)
Fixpoint unlocked_accesses (held : bool) (t : Trace) : list Event :=
  match t with
  | [] => []
  | MutexLock :: t' => unlocked_accesses true t'
  | MutexUnlock :: t' => unlocked_accesses false t'
  | Fetch f :: t' =>
      if guarded f && negb held then Fetch f :: unlocked_accesses held t'
      else unlocked_accesses held t'
  | Assign f :: t' =>
      if guarded f && negb held then Assign f :: unlocked_accesses held t'
      else unlocked_accesses held t'
  | Invoke _ :: t' => unlocked_accesses held t'
  end.

(** The window's mutating operations. *)
Inductive Operation : Type :=
| OpSetVisible (visible : bool)
| OpSetGeometry (rect : QRect)
| OpSetWindowState (state : WindowState)
| OpHandleSurfaceResize (width height : Z)
| OpHandleSurfaceExposeChange (exposed : bool)
| OpBuffersSwapped (newBufferWidth newBufferHeight : Z).

Definition perform (QT_NO_DEBUG : bool) (op : Operation) : M UbuntuWindow unit :=
  match op with
  | OpSetVisible v => setVisible v
  | OpSetGeometry r => setGeometry r
  | OpSetWindowState s => setWindowState s
  | OpHandleSurfaceResize w h => handleSurfaceResize w h
  | OpHandleSurfaceExposeChange e => handleSurfaceExposeChange e
  | OpBuffersSwapped w h => onBuffersSwapped_threadSafe QT_NO_DEBUG w h
  end.

(** ** Sample inputs *)

Module Sample.

(** A phone screen whose available area starts ten pixels down. *)
Definition screen : UbuntuScreen :=
  mkScreen (Rect.make 0 0 540 960) (Rect.make 0 10 540 950).

(** No [GRID_UNIT_PX] in the environment, 64-bit pointers. *)
Definition platform : Platform := mkPlatform None (mkFormat 8) 7 64.

Definition platform_of (var : option string) : Platform :=
  mkPlatform var (mkFormat 8) 7 64.

(** A compositor that offers every candidate format. *)
Definition connection : MirConnection :=
  mkConnection
    [ mir_pixel_format_abgr_8888; mir_pixel_format_xbgr_8888;
      mir_pixel_format_argb_8888; mir_pixel_format_xrgb_8888;
      mir_pixel_format_bgr_888 ]
    1 540 900.

(** A compositor that offers only a format outside the candidate list. *)
Definition connection_rgb565 : MirConnection :=
  mkConnection [ mir_pixel_format_rgb_565 ] 1 540 900.

Definition qwindow (st : WindowState) : QWindow :=
  mkQWindow (mkFormat 8) st (Rect.make 0 0 540 960) None None.

(** A window constructed first in its process. *)
Definition fresh (st : WindowState) (c : MirConnection) : UbuntuWindow :=
  result (UbuntuWindow_new platform (qwindow st) screen c process_start).

Definition request (st : WindowState) : Request :=
  mkRequest platform (qwindow st) screen connection.

Definition normal_window : UbuntuWindow := fresh WindowNoState connection.
Definition maximized_window : UbuntuWindow := fresh WindowMaximized connection.

(** A window on a connection without any candidate format. *)
Definition rgb565_window : UbuntuWindow := fresh WindowNoState connection_rgb565.

(** A swap with a new buffer size, release build. *)
Definition swapped : unit * UbuntuWindow * Trace :=
  onBuffersSwapped_threadSafe true 540 800 normal_window.

(** A resize notification and three swaps with the old buffer size. *)
Definition resized : unit * UbuntuWindow * Trace :=
  handleSurfaceResize 540 800 normal_window.
Definition stale1 : unit * UbuntuWindow * Trace :=
  onBuffersSwapped_threadSafe true 540 900 (final resized).
Definition stale2 : unit * UbuntuWindow * Trace :=
  onBuffersSwapped_threadSafe true 540 900 (final stale1).
Definition stale3 : unit * UbuntuWindow * Trace :=
  onBuffersSwapped_threadSafe true 540 900 (final stale2).

(** [setWindowState] twice with a new state, and twice with the stored one. *)
Definition maximize1 : unit * UbuntuWindow * Trace :=
  setWindowState WindowMaximized normal_window.
Definition maximize2 : unit * UbuntuWindow * Trace :=
  setWindowState WindowMaximized (final maximize1).
Definition remaximize1 : unit * UbuntuWindow * Trace :=
  setWindowState WindowMaximized maximized_window.
Definition remaximize2 : unit * UbuntuWindow * Trace :=
  setWindowState WindowMaximized (final remaximize1).

(** Three windows constructed in one process. *)
Definition three_requests : list Request :=
  [ request WindowNoState; request WindowMaximized; request WindowFullScreen ].
Definition three_windows : list UbuntuWindow :=
  fst (construct three_requests process_start).
Definition nth_window (i : nat) : UbuntuWindow :=
  nth i three_windows normal_window.

End Sample.

(** ** Vocabulary of the properties *)

Definition alpha_capable (f : MirPixelFormat) : Prop :=
  f = mir_pixel_format_argb_8888 \/ f = mir_pixel_format_abgr_8888.

(** The position of a format in the candidate list, [formatsCount] when it
    is not a candidate. *)
Fixpoint index_in (f : MirPixelFormat) (l : list MirPixelFormat) : nat :=
  match l with
  | [] => 0
  | c :: rest => if MirPixelFormat_eqb f c then 0 else S (index_in f rest)
  end.

Definition priority (f : MirPixelFormat) : nat := index_in f formats.

(** The rectangle an expose event carries for a window in a given state. *)
Definition exposeRect (w : UbuntuWindow) : QRect := result (exposedRegion w).

(** A window with the debug-build frame counter left out of account. *)
Definition forget_frameNumber (w : UbuntuWindow) : UbuntuWindow :=
  set_d_frameNumber 0 w.

(** The pixel formats of the surface specifications a call list creates. *)
Fixpoint spec_formats (cs : list Call) : list MirPixelFormat :=
  match cs with
  | [] => []
  | mir_connection_create_spec_for_input_method _ _ f :: cs'
  | mir_connection_create_spec_for_normal_surface _ _ f :: cs' =>
      f :: spec_formats cs'
  | _ :: cs' => spec_formats cs'
  end.

(** The number of surface-creation requests in a call list. *)
Fixpoint surface_creations (cs : list Call) : nat :=
  match cs with
  | [] => 0
  | mir_surface_create :: cs' => S (surface_creations cs')
  | _ :: cs' => surface_creations cs'
  end.

(** The warnings in a call list. *)
Fixpoint warnings (cs : list Call) : list string :=
  match cs with
  | [] => []
  | qWarning msg :: cs' => msg :: warnings cs'
  | _ :: cs' => warnings cs'
  end.

(** ** Sequences of operations *)

(** The operations applied one after the other: the window they leave and
    the trace of all of them. *)
Fixpoint perform_all (QT_NO_DEBUG : bool) (ops : list Operation) (w : UbuntuWindow)
  : UbuntuWindow * Trace :=
  match ops with
  | [] => (w, [])
  | op :: rest =>
      let '(_, w1, t1) := perform QT_NO_DEBUG op w in
      let '(w2, t2) := perform_all QT_NO_DEBUG rest w1 in
      (w2, t1 ++ t2)
  end.

(** The number of expose events in a call list. *)
Fixpoint exposes (cs : list Call) : nat :=
  match cs with
  | [] => 0
  | handleExposeEvent _ :: cs' => S (exposes cs')
  | _ :: cs' => exposes cs'
  end.

(** The surface states a call list requests of the compositor. *)
Fixpoint state_requests (cs : list Call) : list MirSurfaceState :=
  match cs with
  | [] => []
  | mir_surface_set_state st :: cs' => st :: state_requests cs'
  | _ :: cs' => state_requests cs'
  end.

(** The state the last [setWindowState] of a sequence asks for, [st] when
    there is none. *)
Fixpoint last_window_state (ops : list Operation) (st : WindowState) : WindowState :=
  match ops with
  | [] => st
  | OpSetWindowState s :: rest => last_window_state rest s
  | _ :: rest => last_window_state rest st
  end.

(** The flag the last expose-change notification of a sequence carries. *)
Fixpoint last_exposed (ops : list Operation) (e : bool) : bool :=
  match ops with
  | [] => e
  | OpHandleSurfaceExposeChange e' :: rest => last_exposed rest e'
  | _ :: rest => last_exposed rest e
  end.

(** ** Destruction *)

(** The calls of the destructor. *)
Inductive TeardownCall : Type :=
| eglDestroySurface (surface : nat)
| mir_surface_release_sync (surface : option nat).

(** [UbuntuWindowPrivate::destroyEGLSurface] *)
Definition destroyEGLSurface (w : UbuntuWindow) : UbuntuWindow * list TeardownCall :=
  match d_eglSurface w with
  | Some s => (set_d_eglSurface None w, [eglDestroySurface s])
  | None => (w, [])
  end.

(** [UbuntuWindow::~UbuntuWindow]: the calls made before [d] is deleted. *)
Definition UbuntuWindow_delete (w : UbuntuWindow) : list TeardownCall :=
  let '(w', t) := destroyEGLSurface w in
  t ++ [mir_surface_release_sync (d_surface w')].

(** [UbuntuWindow::isExposed]; [visible] is [window()->isVisible()]. *)
Definition isExposed (visible : bool) (w : UbuntuWindow) : bool :=
  d_exposed w && visible.

(** A run of buffer swaps, given by the sizes they report. *)
Definition swaps (sizes : list (Z * Z)) : list Operation :=
  map (fun s => OpBuffersSwapped (fst s) (snd s)) sizes.

Module Scenario.

(** Four swaps after a resize: stale, unknown, stale, stale. *)
Definition stale_sizes : list (Z * Z) :=
  [ (540, 900); (0, 0); (540, 900); (540, 900) ].

End Scenario.

(** The sizes of the surface specifications a call list creates. *)
Fixpoint spec_sizes (cs : list Call) : list (Z * Z) :=
  match cs with
  | [] => []
  | mir_connection_create_spec_for_input_method w h _ :: cs'
  | mir_connection_create_spec_for_normal_surface w h _ :: cs' =>
      (w, h) :: spec_sizes cs'
  | _ :: cs' => spec_sizes cs'
  end.

(** Whether a call creates a surface specification, and of which kind. *)
Definition is_input_method_spec (c : Call) : bool :=
  match c with
  | mir_connection_create_spec_for_input_method _ _ _ => true
  | _ => false
  end.

Definition is_normal_surface_spec (c : Call) : bool :=
  match c with
  | mir_connection_create_spec_for_normal_surface _ _ _ => true
  | _ => false
  end.

(** ** [ApplicationListModel]

    [src/modules/application/application_list_model.cc].  The model keeps
    the [Application] pointers in the vector [applications_]; a pointer is a
    number here.  The row signals of [QAbstractListModel] that [add] and
    [remove] emit are returned beside the new vector. *)

Module ApplicationListModel.

Inductive Signal : Type :=
| beginInsertRows (first last : Z)
| endInsertRows
| beginRemoveRows (first last : Z)
| endRemoveRows.

(** [applications_.size()] *)
Definition size (applications_ : list nat) : Z :=
  Z.of_nat (List.length applications_).

(** [rowCount(parent)]; [parent_valid] is [parent.isValid()]. *)
Definition rowCount (parent_valid : bool) (applications_ : list nat) : Z :=
  if negb parent_valid then size applications_ else 0.

(** [data(index, role)] with [row] for [index.row()]; [None] is the invalid
    [QVariant()]. *)
Definition data (row role : Z) (applications_ : list nat) : option nat :=
  if (0 <=? row) && (row <? size applications_) && (role =? 0)
  then nth_error applications_ (Z.to_nat row)
  else None.

(** [add(application)]; the assertions of debug builds are not part of it. *)
Definition add (application : nat) (applications_ : list nat)
  : list nat * list Signal :=
  (applications_ ++ [application],
   [beginInsertRows (size applications_) (size applications_); endInsertRows]).

(** The loop of [remove], from index [i] on: the index of the first entry
    equal to [application] and the vector without that entry. *)
Fixpoint remove_first (i : Z) (application : nat) (rest : list nat)
  : option (Z * list nat) :=
  match rest with
  | [] => None
  | a :: rest' =>
      if Nat.eqb a application then Some (i, rest')
      else
        match remove_first (i + 1) application rest' with
        | Some (j, kept) => Some (j, a :: kept)
        | None => None
        end
  end.

(** [remove(application)]; falling out of the loop changes nothing. *)
Definition remove (application : nat) (applications_ : list nat)
  : list nat * list Signal :=
  match remove_first 0 application applications_ with
  | Some (i, kept) => (kept, [beginRemoveRows i i; endRemoveRows])
  | None => (applications_, [])
  end.

End ApplicationListModel.

(** * Properties *)

(** ** Arithmetic on [int] *)

Lemma wrap_int_range (z : Z) : is_int (wrap_int z).
Proof.
  unfold is_int, wrap_int, INT_MIN, INT_MAX.
  pose proof (Z.mod_pos_bound (z + 2 ^ 31) (2 ^ 32) ltac:(lia)). lia.
Qed.

Lemma wrap_int_id (z : Z) : is_int z -> wrap_int z = z.
Proof.
  unfold is_int, wrap_int, INT_MIN, INT_MAX. intros H.
  rewrite Z.mod_small by lia. lia.
Qed.

Lemma wrap_int_shift (z k : Z) : wrap_int (z + k * 2 ^ 32) = wrap_int z.
Proof.
  unfold wrap_int.
  replace (z + k * 2 ^ 32 + 2 ^ 31) with (z + 2 ^ 31 + k * 2 ^ 32) by ring.
  now rewrite Z_mod_plus_full.
Qed.

Lemma wrap_int_repr (z : Z) : exists k, wrap_int z = z + k * 2 ^ 32.
Proof.
  exists (- ((z + 2 ^ 31) / 2 ^ 32)). unfold wrap_int.
  rewrite Z.mod_eq by lia. ring.
Qed.

Lemma wrap_int_add_l (a b : Z) : wrap_int (wrap_int a + b) = wrap_int (a + b).
Proof.
  destruct (wrap_int_repr a) as [k ->].
  replace (a + k * 2 ^ 32 + b) with (a + b + k * 2 ^ 32) by ring.
  apply wrap_int_shift.
Qed.

Lemma wrap_int_sub_l (a b : Z) : wrap_int (wrap_int a - b) = wrap_int (a - b).
Proof. apply (wrap_int_add_l a (- b)). Qed.

(** Setting a width and reading it back. *)
Lemma width_setWidth (w : Z) (r : QRect) :
  is_int w -> Rect.width (Rect.setWidth w r) = w.
Proof.
  intros Hw. unfold Rect.width, Rect.setWidth, add, sub. simpl.
  destruct (wrap_int_repr (x1 r + w)) as [k1 ->].
  destruct (wrap_int_repr (x1 r + w + k1 * 2 ^ 32 - 1)) as [k2 ->].
  destruct (wrap_int_repr (x1 r + w + k1 * 2 ^ 32 - 1 + k2 * 2 ^ 32 - x1 r))
    as [k3 ->].
  match goal with
  | |- wrap_int ?e = _ =>
      replace e with (w + (k1 + k2 + k3) * 2 ^ 32) by ring
  end.
  rewrite wrap_int_shift. now apply wrap_int_id.
Qed.

Lemma height_setHeight (h : Z) (r : QRect) :
  is_int h -> Rect.height (Rect.setHeight h r) = h.
Proof.
  intros Hh. unfold Rect.height, Rect.setHeight, add, sub. simpl.
  destruct (wrap_int_repr (y1 r + h)) as [k1 ->].
  destruct (wrap_int_repr (y1 r + h + k1 * 2 ^ 32 - 1)) as [k2 ->].
  destruct (wrap_int_repr (y1 r + h + k1 * 2 ^ 32 - 1 + k2 * 2 ^ 32 - y1 r))
    as [k3 ->].
  match goal with
  | |- wrap_int ?e = _ =>
      replace e with (h + (k1 + k2 + k3) * 2 ^ 32) by ring
  end.
  rewrite wrap_int_shift. now apply wrap_int_id.
Qed.

(** A rectangle built from a corner and a size has that size. *)
Lemma width_of_point_size (p : QPoint) (s : QSize) :
  is_int (wd s) -> Rect.width (Rect.of_point_size p s) = wd s.
Proof.
  intros Hw. unfold Rect.width, Rect.of_point_size, add, sub. simpl.
  destruct (wrap_int_repr (xp p + wd s)) as [k1 ->].
  destruct (wrap_int_repr (xp p + wd s + k1 * 2 ^ 32 - 1)) as [k2 ->].
  destruct (wrap_int_repr (xp p + wd s + k1 * 2 ^ 32 - 1 + k2 * 2 ^ 32 - xp p))
    as [k3 ->].
  match goal with
  | |- wrap_int ?e = _ =>
      replace e with (wd s + (k1 + k2 + k3) * 2 ^ 32) by ring
  end.
  rewrite wrap_int_shift. now apply wrap_int_id.
Qed.

Lemma height_of_point_size (p : QPoint) (s : QSize) :
  is_int (ht s) -> Rect.height (Rect.of_point_size p s) = ht s.
Proof.
  intros Hh. unfold Rect.height, Rect.of_point_size, add, sub. simpl.
  destruct (wrap_int_repr (yp p + ht s)) as [k1 ->].
  destruct (wrap_int_repr (yp p + ht s + k1 * 2 ^ 32 - 1)) as [k2 ->].
  destruct (wrap_int_repr (yp p + ht s + k1 * 2 ^ 32 - 1 + k2 * 2 ^ 32 - yp p))
    as [k3 ->].
  match goal with
  | |- wrap_int ?e = _ =>
      replace e with (ht s + (k1 + k2 + k3) * 2 ^ 32) by ring
  end.
  rewrite wrap_int_shift. now apply wrap_int_id.
Qed.

Lemma width_setHeight (h : Z) (r : QRect) :
  Rect.width (Rect.setHeight h r) = Rect.width r.
Proof. reflexivity. Qed.

(** ** Panel height *)

Lemma panelHeight_no_overflow (p : Platform) :
  - 2 ^ 28 <= gridUnit p <= 2 ^ 28 ->
  panelHeight p = gridUnit p * 3 + (gridUnit p / defaultGridUnit) * 2.
Proof.
  intros H. unfold panelHeight, densityPixelRatio_floor, add, mul, defaultGridUnit.
  assert (Hq : - 2 ^ 25 <= gridUnit p / 8 <= 2 ^ 25).
  { split.
    - apply Z.div_le_lower_bound; lia.
    - apply Z.div_le_upper_bound; lia. }
  rewrite (wrap_int_id (gridUnit p * 3)) by (unfold is_int, INT_MIN, INT_MAX; lia).
  rewrite (wrap_int_id (gridUnit p / 8 * 2)) by (unfold is_int, INT_MIN, INT_MAX; lia).
  apply wrap_int_id. unfold is_int, INT_MIN, INT_MAX. lia.
Qed.

Lemma gridUnit_fallback (p : Platform) (s : string) :
  GRID_UNIT_PX p = Some s -> snd (QByteArray.toInt s) = false ->
  gridUnit p = defaultGridUnit.
Proof.
  intros Hs Hok. unfold gridUnit. rewrite Hs. simpl.
  destruct (QByteArray.isEmpty s); [reflexivity|].
  destruct (QByteArray.toInt s) as [v ok]. simpl in Hok. now rewrite Hok.
Qed.

(** C7: [panelHeight] is [gridUnit*3 + floor(gridUnit/8)*2] of the grid unit
    read from [GRID_UNIT_PX], as long as that stays within an [int]; "16"
    gives 52; an unset or empty variable, "bogus" and every other value that
    [toInt] rejects give the default unit 8 and so 26. *)
Theorem panelHeight_grid_unit :
  (forall p, - 2 ^ 28 <= gridUnit p <= 2 ^ 28 ->
     panelHeight p = gridUnit p * 3 + (gridUnit p / defaultGridUnit) * 2) /\
  (forall p, GRID_UNIT_PX p = Some "16"%string ->
     gridUnit p = 16 /\ panelHeight p = 52) /\
  (forall p, GRID_UNIT_PX p = Some "bogus"%string ->
     gridUnit p = defaultGridUnit /\ panelHeight p = 26) /\
  (forall p, GRID_UNIT_PX p = None \/ GRID_UNIT_PX p = Some ""%string ->
     gridUnit p = defaultGridUnit /\ panelHeight p = 26) /\
  (forall p s, GRID_UNIT_PX p = Some s -> snd (QByteArray.toInt s) = false ->
     gridUnit p = defaultGridUnit /\ panelHeight p = 26).
Proof.
  split; [exact panelHeight_no_overflow|].
  split.
  { intros p H. unfold panelHeight, gridUnit. rewrite H. split; reflexivity. }
  split.
  { intros p H. unfold panelHeight, gridUnit. rewrite H. split; reflexivity. }
  split.
  { intros p [H|H]; unfold panelHeight, gridUnit; rewrite H; split; reflexivity. }
  intros p s Hs Hok. pose proof (gridUnit_fallback p s Hs Hok) as Hg.
  split; [exact Hg|]. unfold panelHeight. rewrite Hg. reflexivity.
Qed.

Lemma panelHeight_grid_unit_witness :
  panelHeight (Sample.platform_of (Some "16"%string)) = 52 /\
  panelHeight (Sample.platform_of (Some "bogus"%string)) = 26 /\
  panelHeight (Sample.platform_of None) = 26 /\
  panelHeight (Sample.platform_of (Some "-4"%string)) = -4 * 3 + (-4 / 8) * 2.
Proof.
  destruct panelHeight_grid_unit as (Hf & H16 & Hb & Hn & _).
  split; [apply (H16 (Sample.platform_of (Some "16"%string))); reflexivity|].
  split; [apply (Hb (Sample.platform_of (Some "bogus"%string))); reflexivity|].
  split; [apply (Hn (Sample.platform_of None)); left; reflexivity|].
  apply (Hf (Sample.platform_of (Some "-4"%string))). vm_compute. split; discriminate.
Defined.

(** ** Pixel format negotiation *)

Lemma MirPixelFormat_eqb_eq (a b : MirPixelFormat) :
  MirPixelFormat_eqb a b = true <-> a = b.
Proof. destruct a, b; simpl; split; intros H; try reflexivity; discriminate. Qed.

Lemma is_available_In (f : MirPixelFormat) (l : list MirPixelFormat) :
  is_available f l = true <-> In f l.
Proof.
  induction l as [|a l IH]; simpl.
  - split; [discriminate | contradiction].
  - destruct (MirPixelFormat_eqb f a) eqn:E.
    + apply MirPixelFormat_eqb_eq in E. subst. tauto.
    + rewrite IH. split; [tauto|]. intros [H|H]; [|exact H].
      subst. assert (MirPixelFormat_eqb f f = true) by now apply MirPixelFormat_eqb_eq.
      congruence.
Qed.

Lemma is_available_not_In (f : MirPixelFormat) (l : list MirPixelFormat) :
  is_available f l = false <-> ~ In f l.
Proof.
  rewrite <- is_available_In. destruct (is_available f l); split; congruence.
Qed.

Lemma first_available_None (cands avail : list MirPixelFormat) :
  first_available cands avail = None <-> forall c, In c cands -> ~ In c avail.
Proof.
  induction cands as [|c cands IH]; simpl.
  - split; [contradiction | reflexivity].
  - destruct (is_available c avail) eqn:E.
    + split; [discriminate|]. intros H. exfalso.
      apply (H c); [now left | now apply is_available_In].
    + rewrite IH. split.
      * intros H c' [<-|Hc']; [now apply is_available_not_In | now apply H].
      * intros H c' Hc'. apply H. now right.
Qed.

(** C2: without the alpha requirement the negotiator returns neither
    ARGB_8888 nor ABGR_8888; with it, and an alpha-capable candidate in the
    supported set, it returns an alpha-capable format of the supported set
    that no other alpha-capable format of that set precedes in the candidate
    list. *)
Theorem getPixelFormat_alpha_policy
    (S : Type) (connection : MirConnection) (s : S) :
  ~ alpha_capable (result (getPixelFormat connection false s)) /\
  (forall c, In c (available_surface_formats connection) -> alpha_capable c ->
     let f := result (getPixelFormat connection true s) in
     alpha_capable f /\ In f (available_surface_formats connection) /\
     forall c', In c' (available_surface_formats connection) ->
       alpha_capable c' -> (priority f <= priority c')%nat).
Proof.
  unfold getPixelFormat, alpha_capable. split.
  - simpl.
    destruct (is_available mir_pixel_format_xrgb_8888 _);
      [cbv; intros [H|H]; discriminate|].
    destruct (is_available mir_pixel_format_xbgr_8888 _);
      [cbv; intros [H|H]; discriminate|].
    destruct (is_available mir_pixel_format_bgr_888 _);
      cbv; intros [H|H]; discriminate.
  - intros c Hc Ha. simpl.
    destruct (is_available mir_pixel_format_argb_8888 _) eqn:E1.
    + cbv [result ret fst]. split; [now left|].
      split; [now apply is_available_In|]. intros c' _ _. cbv. lia.
    + apply is_available_not_In in E1.
      destruct (is_available mir_pixel_format_abgr_8888 _) eqn:E2.
      * cbv [result ret fst]. split; [now right|].
        split; [now apply is_available_In|].
        intros c' Hc' [->| ->]; [contradiction | cbv; lia].
      * apply is_available_not_In in E2. exfalso.
        destruct Ha as [->| ->]; contradiction.
Qed.

Lemma getPixelFormat_alpha_policy_witness :
  let f := result (getPixelFormat (S := unit) Sample.connection true tt) in
  alpha_capable f /\ In f (available_surface_formats Sample.connection) /\
  (priority f <= priority mir_pixel_format_abgr_8888)%nat.
Proof.
  destruct (getPixelFormat_alpha_policy unit Sample.connection tt) as [_ Halpha].
  destruct (Halpha mir_pixel_format_abgr_8888) as (Ha & Hin & Hmin).
  - simpl. left. reflexivity.
  - right. reflexivity.
  - split; [exact Ha|]. split; [exact Hin|].
    apply Hmin; [simpl; left; reflexivity | right; reflexivity].
Defined.

(** ** Running the member functions *)

Ltac run :=
  cbv beta iota zeta delta
    [bind ret call fetch assign gets result final trace fst snd app calls
     QMutexLocker_temporary exposedRegion bufferSizeDiffers
     QPlatformWindow_setGeometry screen moveResize
     handleSurfaceResize handleSurfaceExposeChange setWindowState setGeometry
     setVisible onBuffersSwapped_threadSafe perform
     set_geometry set_d_eglSurface set_d_format set_d_state set_d_surface
     set_d_bufferSize set_d_exposed set_d_resizeCatchUpAttempts
     set_d_frameNumber
     window geometry d_screen d_eglSurface d_format d_id d_state d_connection
     d_surface d_bufferSize d_exposed d_resizeCatchUpAttempts d_frameNumber
     wd ht negb andb orb].

(** ** Buffer-resize reconciliation *)

(** C3: a buffer swap that reports a valid size other than the stored one
    clears the catch-up counter, stores the new buffer size, gives the stored
    geometry the new width and height with its origin unchanged, and, once
    the geometry is stored, notifies the toolkit of the geometry change. *)
Theorem buffer_swap_new_size
    (QT_NO_DEBUG : bool) (width height : Z) (w : UbuntuWindow) :
  0 < width <= INT_MAX -> 0 < height <= INT_MAX ->
  wd (d_bufferSize w) <> width \/ ht (d_bufferSize w) <> height ->
  let r := onBuffersSwapped_threadSafe QT_NO_DEBUG width height w in
  let w' := final r in
  d_resizeCatchUpAttempts w' = 0 /\
  d_bufferSize w' = mkQSize width height /\
  Rect.width (geometry w') = width /\ Rect.height (geometry w') = height /\
  Rect.x (geometry w') = Rect.x (geometry w) /\
  Rect.y (geometry w') = Rect.y (geometry w) /\
  calls (trace r) = [handleGeometryChange (geometry w') Rect.null] /\
  exists before,
    trace r = before ++ [Assign F_geometry;
                         Invoke (handleGeometryChange (geometry w') Rect.null)].
Proof.
  intros Hw Hh Hdiff r w'. subst w' r.
  assert (Hiw : is_int width) by (unfold is_int, INT_MIN, INT_MAX in *; lia).
  assert (Hih : is_int height) by (unfold is_int, INT_MIN, INT_MAX in *; lia).
  destruct w as [q g scr egl fmt i st conn surf [bw bh] ex n fr].
  simpl in Hdiff.
  assert (Hkw : (0 <? width) = true) by (apply Z.ltb_lt; lia).
  assert (Hkh : (0 <? height) = true) by (apply Z.ltb_lt; lia).
  assert (Hcases : (bw =? width) = false \/
                   ((bw =? width) = true /\ (bh =? height) = false)).
  { destruct (Z.eqb_spec bw width); [|now left].
    right. split; [reflexivity|]. apply Z.eqb_neq. tauto. }
  destruct QT_NO_DEBUG;
    (destruct Hcases as [Ew|[Ew Eh]];
     run; rewrite Hkw, Hkh; run; rewrite Ew; run; rewrite ?Eh; run;
     (split; [reflexivity|]); (split; [reflexivity|]);
     (split; [rewrite width_setHeight; apply width_setWidth; exact Hiw|]);
     (split; [apply height_setHeight; exact Hih|]);
     (split; [reflexivity|]); (split; [reflexivity|]);
     (split; [reflexivity|]);
     match goal with
     | |- exists b, ?t = @?rhs b => exists (removelast (removelast t))
     end; reflexivity).
Qed.

Lemma buffer_swap_new_size_witness :
  d_resizeCatchUpAttempts (final Sample.swapped) = 0 /\
  d_bufferSize (final Sample.swapped) = mkQSize 540 800 /\
  Rect.y (geometry (final Sample.swapped)) = Rect.y (geometry Sample.normal_window) /\
  calls (trace Sample.swapped)
    = [handleGeometryChange (geometry (final Sample.swapped)) Rect.null].
Proof.
  destruct (buffer_swap_new_size true 540 800 Sample.normal_window)
    as (H0 & Hb & _ & _ & _ & Hy & Hc & _).
  - unfold INT_MAX. lia.
  - unfold INT_MAX. lia.
  - right. vm_compute. discriminate.
  - repeat split; assumption.
Defined.

(** A resize notification whose size is not the stored buffer size. *)
Lemma handleSurfaceResize_mismatch (width height : Z) (w : UbuntuWindow) :
  wd (d_bufferSize w) <> width \/ ht (d_bufferSize w) <> height ->
  final (handleSurfaceResize width height w) = set_d_resizeCatchUpAttempts 2 w /\
  calls (trace (handleSurfaceResize width height w))
    = [handleExposeEvent (exposeRect w); flushWindowSystemEvents].
Proof.
  intros Hdiff. unfold exposeRect.
  destruct w as [q g scr egl fmt i st conn surf [bw bh] ex n fr].
  simpl in Hdiff.
  assert (Hcases : (bw =? width) = false \/
                   ((bw =? width) = true /\ (bh =? height) = false)).
  { destruct (Z.eqb_spec bw width); [|now left].
    right. split; [reflexivity|]. apply Z.eqb_neq. tauto. }
  destruct Hcases as [Ew|[Ew Eh]]; run; rewrite Ew; run; rewrite ?Eh; run;
    destruct ex; split; reflexivity.
Qed.

(** A buffer swap that reports the stored buffer size. *)
Lemma swap_same_size (QT_NO_DEBUG : bool) (w : UbuntuWindow) :
  let r := onBuffersSwapped_threadSafe QT_NO_DEBUG
             (wd (d_bufferSize w)) (ht (d_bufferSize w)) w in
  let w0 := if QT_NO_DEBUG then w
            else set_d_frameNumber (add (d_frameNumber w) 1) w in
  (0 < d_resizeCatchUpAttempts w ->
     final r = set_d_resizeCatchUpAttempts (sub (d_resizeCatchUpAttempts w) 1) w0 /\
     calls (trace r) = [handleExposeEvent (exposeRect w)]) /\
  (d_resizeCatchUpAttempts w <= 0 -> final r = w0 /\ calls (trace r) = []).
Proof.
  unfold exposeRect.
  destruct w as [q g scr egl fmt i st conn surf [bw bh] ex n fr].
  cbv zeta. split; intros Hn; simpl in Hn.
  - assert (En : (0 <? n) = true) by (apply Z.ltb_lt; lia).
    destruct QT_NO_DEBUG; destruct ((0 <? bw) && (0 <? bh))%bool eqn:Ek;
      run; fold (andb (0 <? bw) (0 <? bh)); rewrite Ek; run;
      rewrite ?Z.eqb_refl; run; rewrite En; run; destruct ex; split; reflexivity.
  - assert (En : (0 <? n) = false) by (apply Z.ltb_ge; lia).
    destruct QT_NO_DEBUG; destruct ((0 <? bw) && (0 <? bh))%bool eqn:Ek;
      run; fold (andb (0 <? bw) (0 <? bh)); rewrite Ek; run;
      rewrite ?Z.eqb_refl; run; rewrite En; run; split; reflexivity.
Qed.

(** The expose rectangle depends on the exposed flag and the geometry only. *)
Lemma exposeRect_attempts (n : Z) (w : UbuntuWindow) :
  exposeRect (set_d_resizeCatchUpAttempts n w) = exposeRect w.
Proof.
  destruct w as [q g scr egl fmt i st conn surf bs ex m fr].
  destruct ex; reflexivity.
Qed.

Lemma exposeRect_frameNumber (n : Z) (w : UbuntuWindow) :
  exposeRect (set_d_frameNumber n w) = exposeRect w.
Proof.
  destruct w as [q g scr egl fmt i st conn surf bs ex m fr].
  destruct ex; reflexivity.
Qed.

(** C4: on a converged window, a resize notification with a size other than
    the stored buffer size sets the catch-up counter to 2 and leaves the
    buffer size and the geometry alone; each of the next two buffer swaps
    that still report the old size takes one off the counter and emits one
    expose event; the third such swap emits nothing and leaves every member
    as it was (the frame counter of a debug build, which counts every
    swap, apart). *)
Theorem resize_catch_up
    (QT_NO_DEBUG : bool) (width height : Z) (w : UbuntuWindow) :
  d_resizeCatchUpAttempts w = 0 ->
  wd (d_bufferSize w) <> width \/ ht (d_bufferSize w) <> height ->
  let old := d_bufferSize w in
  let swap := onBuffersSwapped_threadSafe QT_NO_DEBUG (wd old) (ht old) in
  let r1 := handleSurfaceResize width height w in
  let r2 := swap (final r1) in
  let r3 := swap (final r2) in
  let r4 := swap (final r3) in
  (d_resizeCatchUpAttempts (final r1) = 2 /\
   d_bufferSize (final r1) = old /\ geometry (final r1) = geometry w /\
   calls (trace r1) = [handleExposeEvent (exposeRect w); flushWindowSystemEvents]) /\
  (d_resizeCatchUpAttempts (final r2) = 1 /\
   calls (trace r2) = [handleExposeEvent (exposeRect w)]) /\
  (d_resizeCatchUpAttempts (final r3) = 0 /\
   calls (trace r3) = [handleExposeEvent (exposeRect w)] /\
   d_bufferSize (final r3) = old /\ geometry (final r3) = geometry w) /\
  (calls (trace r4) = [] /\
   forget_frameNumber (final r4) = forget_frameNumber (final r3) /\
   (QT_NO_DEBUG = true -> final r4 = final r3)).
Proof.
  intros H0 Hdiff old swap r1 r2 r3 r4.
  destruct (handleSurfaceResize_mismatch width height w Hdiff) as [E1 C1].
  fold r1 in E1, C1.
  assert (Hold1 : d_bufferSize (final r1) = old) by (rewrite E1; reflexivity).
  (* first stale swap *)
  destruct (swap_same_size QT_NO_DEBUG (final r1)) as [S2 _].
  rewrite Hold1 in S2. fold swap in S2. fold r2 in S2.
  destruct S2 as [E2 C2]; [rewrite E1; simpl; lia|].
  assert (N2 : d_resizeCatchUpAttempts (final r2) = 1).
  { rewrite E2, E1. destruct QT_NO_DEBUG; reflexivity. }
  assert (Hold2 : d_bufferSize (final r2) = old).
  { rewrite E2, E1. destruct QT_NO_DEBUG; reflexivity. }
  assert (X1 : exposeRect (final r1) = exposeRect w).
  { rewrite E1. apply exposeRect_attempts. }
  assert (X2 : exposeRect (final r2) = exposeRect w).
  { rewrite E2, exposeRect_attempts.
    destruct QT_NO_DEBUG; rewrite ?exposeRect_frameNumber; exact X1. }
  (* second stale swap *)
  destruct (swap_same_size QT_NO_DEBUG (final r2)) as [S3 _].
  rewrite Hold2 in S3. fold swap in S3. fold r3 in S3.
  destruct S3 as [E3 C3]; [rewrite N2; lia|].
  assert (N3 : d_resizeCatchUpAttempts (final r3) = 0).
  { rewrite E3, N2. destruct QT_NO_DEBUG; reflexivity. }
  assert (Hold3 : d_bufferSize (final r3) = old).
  { rewrite E3, E2, E1. destruct QT_NO_DEBUG; reflexivity. }
  (* third stale swap *)
  destruct (swap_same_size QT_NO_DEBUG (final r3)) as [_ S4].
  rewrite Hold3 in S4. fold swap in S4. fold r4 in S4.
  destruct S4 as [E4 C4]; [rewrite N3; lia|].
  repeat split.
  - rewrite E1. reflexivity.
  - exact Hold1.
  - rewrite E1. reflexivity.
  - exact C1.
  - exact N2.
  - rewrite C2, X1. reflexivity.
  - exact N3.
  - rewrite C3, X2. reflexivity.
  - exact Hold3.
  - rewrite E3, E2, E1. destruct QT_NO_DEBUG; reflexivity.
  - exact C4.
  - rewrite E4. destruct QT_NO_DEBUG; reflexivity.
  - intros ->. exact E4.
Qed.

Lemma resize_catch_up_witness :
  d_resizeCatchUpAttempts (final Sample.resized) = 2 /\
  d_resizeCatchUpAttempts (final Sample.stale1) = 1 /\
  d_resizeCatchUpAttempts (final Sample.stale2) = 0 /\
  calls (trace Sample.stale3) = [] /\
  final Sample.stale3 = final Sample.stale2.
Proof.
  destruct (resize_catch_up true 540 800 Sample.normal_window)
    as ((H1 & _) & (H2 & _) & (H3 & _) & (H4 & _ & H5)).
  - reflexivity.
  - right. vm_compute. discriminate.
  - split; [exact H1|]. split; [exact H2|]. split; [exact H3|].
    split; [exact H4|]. apply H5. reflexivity.
Defined.

(** ** Window state and visibility *)

Lemma WindowState_eqb_eq (a b : WindowState) :
  WindowState_eqb a b = true <-> a = b.
Proof. destruct a, b; simpl; split; intros H; try reflexivity; discriminate. Qed.

Lemma WindowState_eqb_refl (a : WindowState) : WindowState_eqb a a = true.
Proof. now apply WindowState_eqb_eq. Qed.

Lemma WindowState_eqb_neq (a b : WindowState) :
  WindowState_eqb a b = false <-> a <> b.
Proof.
  rewrite <- WindowState_eqb_eq. destruct (WindowState_eqb a b); split; congruence.
Qed.

(** [setWindowState] with the stored state does nothing. *)
Lemma setWindowState_unchanged (state : WindowState) (w : UbuntuWindow) :
  d_state w = state ->
  final (setWindowState state w) = w /\ calls (trace (setWindowState state w)) = [].
Proof.
  intros <-. destruct w as [q g scr egl fmt i st conn surf bs ex n fr].
  run. rewrite WindowState_eqb_refl. split; reflexivity.
Qed.

(** [setWindowState] with another state asks the compositor for it. *)
Lemma setWindowState_changed (state : WindowState) (w : UbuntuWindow) :
  d_state w <> state ->
  final (setWindowState state w) = set_d_state state w /\
  calls (trace (setWindowState state w))
    = [mir_surface_set_state (qtWindowStateToMirSurfaceState state)].
Proof.
  intros Hne. destruct w as [q g scr egl fmt i st conn surf bs ex n fr].
  simpl in Hne.
  assert (E : WindowState_eqb state st = false) by (apply WindowState_eqb_neq; congruence).
  run. rewrite E. split; reflexivity.
Qed.

(** C8, as the code has it: two successive calls [setWindowState(s)] issue
    one state-change request when [s] is not the stored state and none when
    it is; in both cases the second call issues no request and leaves the
    window as the first call left it, with [s] stored. *)
Theorem setWindowState_twice (state : WindowState) (w : UbuntuWindow) :
  let r1 := setWindowState state w in
  let r2 := setWindowState state (final r1) in
  (d_state w <> state ->
     calls (trace r1) ++ calls (trace r2)
       = [mir_surface_set_state (qtWindowStateToMirSurfaceState state)]) /\
  (d_state w = state -> calls (trace r1) ++ calls (trace r2) = []) /\
  calls (trace r2) = [] /\ final r2 = final r1 /\ d_state (final r1) = state.
Proof.
  intros r1 r2.
  assert (Hst : d_state (final r1) = state).
  { unfold r1. destruct (WindowState_eqb state (d_state w)) eqn:E.
    - apply WindowState_eqb_eq in E.
      destruct (setWindowState_unchanged state w (eq_sym E)) as [-> _]. now symmetry.
    - apply WindowState_eqb_neq in E.
      destruct (setWindowState_changed state w) as [E1 _]; [congruence|].
      rewrite E1. destruct w; reflexivity. }
  destruct (setWindowState_unchanged state (final r1) Hst) as [E2 C2].
  fold r2 in E2, C2.
  split; [|split; [|split; [exact C2|split; [exact E2|exact Hst]]]].
  - intros Hne. destruct (setWindowState_changed state w Hne) as [_ C1].
    fold r1 in C1. rewrite C1, C2. reflexivity.
  - intros He. destruct (setWindowState_unchanged state w He) as [_ C1].
    fold r1 in C1. rewrite C1, C2. reflexivity.
Qed.

Lemma setWindowState_twice_witness :
  calls (trace Sample.maximize1) ++ calls (trace Sample.maximize2)
    = [mir_surface_set_state mir_surface_state_maximized] /\
  final Sample.maximize2 = final Sample.maximize1.
Proof.
  destruct (setWindowState_twice WindowMaximized Sample.normal_window)
    as (H1 & _ & _ & H2 & _).
  split; [|exact H2]. apply H1. vm_compute. discriminate.
Defined.

(** C8 as stated fails on a window that already stores the state: neither
    call issues a request. *)
Lemma setWindowState_twice_counterexample :
  d_state Sample.maximized_window = WindowMaximized /\
  calls (trace Sample.remaximize1) ++ calls (trace Sample.remaximize2) = [] /\
  List.length (calls (trace Sample.remaximize1) ++ calls (trace Sample.remaximize2))
    <> 1%nat.
Proof. vm_compute. repeat split. discriminate. Qed.

(** C10: [setVisible], with [true] and with [false], issues the surface-state
    request, then an expose event, whose rectangle has the size of the
    current geometry and sits at the origin when the exposed flag is set and
    is the null rectangle otherwise, then the flush. *)
Theorem setVisible_exposes (visible : bool) (w : UbuntuWindow) :
  calls (trace (setVisible visible w))
    = [ mir_surface_set_state
          (if visible then qtWindowStateToMirSurfaceState (d_state w)
           else mir_surface_state_minimized);
        handleExposeEvent (exposeRect w);
        flushWindowSystemEvents ] /\
  exposeRect w
    = (if d_exposed w
       then Rect.of_point_size QPoint_null (Rect.size (geometry w))
       else Rect.null) /\
  (d_exposed w = true ->
     Rect.x (exposeRect w) = 0 /\ Rect.y (exposeRect w) = 0 /\
     Rect.width (exposeRect w) = Rect.width (geometry w) /\
     Rect.height (exposeRect w) = Rect.height (geometry w)).
Proof.
  unfold exposeRect.
  destruct w as [q g scr egl fmt i st conn surf bs ex n fr].
  split; [destruct visible, ex; reflexivity|].
  split; [destruct ex; reflexivity|].
  simpl. intros ->. run.
  split; [reflexivity|]. split; [reflexivity|].
  split.
  - apply (width_of_point_size QPoint_null (Rect.size g)), wrap_int_range.
  - apply (height_of_point_size QPoint_null (Rect.size g)), wrap_int_range.
Qed.

Lemma setVisible_exposes_witness :
  Rect.width (exposeRect Sample.normal_window) = 540 /\
  Rect.height (exposeRect Sample.normal_window) = 900.
Proof.
  destruct (setVisible_exposes true Sample.normal_window) as (_ & _ & H).
  destruct H as (_ & _ & Hw & Hh); [reflexivity|].
  rewrite Hw, Hh. split; reflexivity.
Defined.

(** ** The per-window lock *)

Ltac split_ifs :=
  repeat match goal with
         | |- context [if ?c then _ else _] => destruct c eqn:?; run
         end.

(** C5 fails on the code.  Every mutating operation opens with the
    statement [QMutexLocker(&d->mutex);], whose unnamed locker is destroyed
    as soon as it is built.  So [setWindowState(Qt::WindowMaximized)] on a
    window in the normal state reads and writes [d->state] after the unlock;
    and for every operation and window the trace starts with the lock and the
    unlock, never locks again, and reads or writes a guarded member
    afterwards, with the mutex free. *)
Theorem mutex_released_before_critical_section :
  trace (setWindowState WindowMaximized Sample.normal_window)
    = [ MutexLock; MutexUnlock; Fetch F_state; Fetch F_surface;
        Invoke (mir_surface_set_state mir_surface_state_maximized);
        Assign F_state ] /\
  forall (QT_NO_DEBUG : bool) (op : Operation) (w : UbuntuWindow),
  exists rest,
    trace (perform QT_NO_DEBUG op w) = MutexLock :: MutexUnlock :: rest /\
    (forall e, In e rest -> e <> MutexLock) /\
    unlocked_accesses false rest <> [] /\
    accesses_locked false (trace (perform QT_NO_DEBUG op w)) = false.
Proof.
  split; [reflexivity|]. intros QT_NO_DEBUG op w.
  destruct w as [q g scr egl fmt i st conn surf [bw bh] ex n fr].
  destruct op; run; split_ifs;
    (eexists; split; [reflexivity|]; split;
     [ intros e Hin; simpl in Hin;
       repeat (destruct Hin as [<-|Hin]; [discriminate|]); contradiction
     | split; [simpl; discriminate | reflexivity] ]).
Qed.

(** ** Window creation *)

Ltac run_create :=
  cbv beta iota zeta delta
    [createWindow surfaceGeometry surfaceCreateCallback getPixelFormat
     WindowState_eqb];
  run.

Ltac split_create :=
  repeat match goal with
         | |- context [if ?c then _ else _] => destruct c eqn:?; run
         | |- context [match ?c with Some _ => _ | None => _ end] =>
             destruct c eqn:?; run
         end.

(** The rectangle resolved for a maximized window. *)
Lemma surfaceGeometry_maximized (panelHeight : Z) (w : UbuntuWindow) :
  d_state w = WindowMaximized ->
  result (surfaceGeometry panelHeight w)
    = Rect.setY panelHeight (availableGeometry (d_screen w)).
Proof.
  destruct w as [q g scr egl fmt i st conn surf bs ex n fr]. simpl.
  intros ->. reflexivity.
Qed.

Lemma createWindow_maximized_y (p : Platform) (w : UbuntuWindow) :
  d_state w = WindowMaximized ->
  Rect.y (geometry (final (createWindow p w))) = panelHeight p.
Proof.
  destruct w as [q g scr egl fmt i st conn surf bs ex n fr]. simpl.
  intros ->. run_create. split_create; reflexivity.
Qed.

(** C1, as the code has it: for a window that is maximized at creation the
    resolved surface geometry is the screen's available geometry with its Y
    origin replaced by [panelHeight], whatever the available geometry's own
    Y origin is; the window's geometry after construction has that Y origin
    too. *)
Theorem maximized_geometry_y :
  (forall panelHeight w, d_state w = WindowMaximized ->
     let g := result (surfaceGeometry panelHeight w) in
     Rect.y g = panelHeight /\
     Rect.x g = Rect.x (availableGeometry (d_screen w)) /\
     x2 g = x2 (availableGeometry (d_screen w)) /\
     y2 g = y2 (availableGeometry (d_screen w))) /\
  (forall p q scr conn proc, windowState q = WindowMaximized ->
     Rect.y (geometry (result (UbuntuWindow_new p q scr conn proc)))
       = panelHeight p).
Proof.
  split.
  - intros ph w Hst g. subst g. rewrite (surfaceGeometry_maximized ph w Hst).
    repeat split.
  - intros p q scr conn proc Hst. unfold UbuntuWindow_new, result.
    match goal with
    | |- context [createWindow p ?w0] =>
        pose proof (createWindow_maximized_y p w0 Hst) as Hy;
        destruct (createWindow p w0) as [[u w'] t]
    end.
    exact Hy.
Qed.

Lemma maximized_geometry_y_witness :
  Rect.y (geometry (result (UbuntuWindow_new Sample.platform
                              (Sample.qwindow WindowMaximized) Sample.screen
                              Sample.connection process_start)))
    = panelHeight Sample.platform.
Proof.
  destruct maximized_geometry_y as [_ H].
  apply (H Sample.platform (Sample.qwindow WindowMaximized)). reflexivity.
Defined.

(** C1 as stated fails where the available geometry does not start at the
    top of the screen: with the available area 10 pixels down and a panel
    height of 26 the maximized window is resolved at Y = 26, not at 36. *)
Lemma maximized_geometry_y_counterexample :
  d_state Sample.maximized_window = WindowMaximized /\
  Rect.y (availableGeometry Sample.screen) = 10 /\
  panelHeight Sample.platform = 26 /\
  Rect.y (result (surfaceGeometry (panelHeight Sample.platform)
                    Sample.maximized_window)) = 26 /\
  Rect.y (geometry Sample.maximized_window) = 26 /\
  Rect.y (geometry Sample.maximized_window)
    <> Rect.y (availableGeometry Sample.screen) + panelHeight Sample.platform.
Proof. vm_compute. repeat split. discriminate. Qed.

Lemma no_candidate_first_available (avail : list MirPixelFormat) (n : nat) :
  (forall c, In c formats -> ~ In c avail) ->
  first_available (skipn n formats) avail = None.
Proof.
  intros H. apply first_available_None. intros c Hc. apply H.
  rewrite <- (firstn_skipn n formats). apply in_or_app. now right.
Qed.

(** C6, as the code has it: when the supported set holds none of the five
    candidates the negotiator warns once and returns the invalid-format
    sentinel, and [createWindow] goes on with it: it creates one surface
    specification, with the sentinel as its pixel format, and issues one
    surface-creation request. *)
Theorem no_candidate_format (p : Platform) (w : UbuntuWindow) :
  (forall c, In c formats -> ~ In c (available_surface_formats (d_connection w))) ->
  (forall hasAlpha,
     result (getPixelFormat (d_connection w) hasAlpha w) = mir_pixel_format_invalid /\
     calls (trace (getPixelFormat (d_connection w) hasAlpha w))
       = [qWarning "[ubuntumirclient QPA] can't find a valid pixel format"]) /\
  warnings (calls (trace (createWindow p w)))
    = ["[ubuntumirclient QPA] can't find a valid pixel format"%string] /\
  spec_formats (calls (trace (createWindow p w))) = [mir_pixel_format_invalid] /\
  surface_creations (calls (trace (createWindow p w))) = 1%nat.
Proof.
  intros Hnone.
  pose proof (no_candidate_first_available _ 0 Hnone) as H0.
  pose proof (no_candidate_first_available _ 2 Hnone) as H2.
  split.
  - intros hasAlpha. unfold getPixelFormat.
    destruct hasAlpha; [rewrite H0 | rewrite H2]; split; reflexivity.
  - destruct w as [q g scr egl fmt i st conn surf bs ex n fr].
    cbv beta iota delta [d_connection] in H0, H2.
    destruct st; run_create;
      (destruct (0 <? alphaBufferSize fmt); run; rewrite ?H0, ?H2; run;
       split_create; repeat split).
Qed.

Lemma no_candidate_format_witness :
  spec_formats (calls (trace (createWindow Sample.platform
      Sample.rgb565_window)))
    = [mir_pixel_format_invalid] /\
  surface_creations (calls (trace (createWindow Sample.platform
      Sample.rgb565_window))) = 1%nat.
Proof.
  destruct (no_candidate_format Sample.platform
              Sample.rgb565_window)
    as (_ & _ & Hs & Hc).
  - intros c Hc Hin. simpl in Hin. destruct Hin as [<-|[]].
    simpl in Hc. repeat (destruct Hc as [Hc|Hc]; [discriminate|]). contradiction.
  - split; assumption.
Defined.

(** C6 as stated fails in its second half: constructing a window on a
    connection that supports none of the candidates still creates the surface
    specification with the sentinel and requests the surface. *)
Lemma no_candidate_format_counterexample :
  (forall c, In c formats ->
     ~ In c (available_surface_formats Sample.connection_rgb565)) /\
  result (getPixelFormat (S := unit) Sample.connection_rgb565 true tt)
    = mir_pixel_format_invalid /\
  calls (trace (UbuntuWindow_new Sample.platform (Sample.qwindow WindowNoState)
                  Sample.screen Sample.connection_rgb565 process_start))
    = [ printf "UbuntuWindow - regular geometry\n";
        qWarning "[ubuntumirclient QPA] can't find a valid pixel format";
        mir_connection_create_spec_for_normal_surface 540 934
          mir_pixel_format_invalid;
        mir_surface_spec_set_name "Window 1";
        mir_surface_create;
        mir_surface_set_event_handler;
        mir_surface_spec_release;
        eglCreateWindowSurface;
        mir_surface_get_parameters;
        handleGeometryChange (mkQRect 0 26 539 925) Rect.null ].
Proof.
  split; [|split; reflexivity].
  intros c Hc Hin. simpl in Hin. destruct Hin as [<-|[]].
  simpl in Hc. repeat (destruct Hc as [Hc|Hc]; [discriminate|]). contradiction.
Qed.

(** ** Window ids *)

Lemma createWindow_keeps_id (p : Platform) (w : UbuntuWindow) :
  d_id (final (createWindow p w)) = d_id w.
Proof.
  destruct w as [q g scr egl fmt i st conn surf bs ex n fr].
  destruct st; run_create; split_create; reflexivity.
Qed.

Lemma UbuntuWindow_new_id (p : Platform) (q : QWindow) (scr : UbuntuScreen)
    (conn : MirConnection) (proc : Process) :
  winId (result (UbuntuWindow_new p q scr conn proc))
    = WId_of_int (pointer_bits p) (static_id proc) /\
  final (UbuntuWindow_new p q scr conn proc) = mkProcess (add (static_id proc) 1).
Proof.
  unfold UbuntuWindow_new, winId.
  match goal with
  | |- context [createWindow p ?w0] =>
      pose proof (createWindow_keeps_id p w0) as Hid;
      destruct (createWindow p w0) as [[u w'] t]
  end.
  simpl in *. split; [exact Hid | reflexivity].
Qed.

Lemma WId_of_int_small (bits v : Z) :
  31 <= bits -> 0 <= v <= INT_MAX -> WId_of_int bits v = v.
Proof.
  intros Hb Hv. unfold WId_of_int, INT_MAX in *.
  apply Z.mod_small. split; [lia|].
  apply Z.lt_le_trans with (2 ^ 31); [lia|].
  apply Z.pow_le_mono_r; lia.
Qed.

(** The [i]-th window constructed from a counter at [c] has id [c + i], up
    to the last value an [int] holds. *)
Lemma construct_ids (requests : list Request) :
  forall (c : Z) (i : nat) (w : UbuntuWindow),
    1 <= c -> c + Z.of_nat (List.length requests) <= INT_MAX + 1 ->
    (forall r, In r requests -> 31 <= pointer_bits (req_platform r)) ->
    nth_error (fst (construct requests (mkProcess c))) i = Some w ->
    winId w = c + Z.of_nat i.
Proof.
  induction requests as [|r rest IH]; intros c i w Hc Hlen Hbits Hnth.
  - destruct i; discriminate.
  - simpl in Hnth, Hlen.
    destruct (UbuntuWindow_new_id (req_platform r) (req_window r) (req_screen r)
                (req_connection r) (mkProcess c)) as [Hid Hproc].
    destruct (UbuntuWindow_new (req_platform r) (req_window r) (req_screen r)
                (req_connection r) (mkProcess c)) as [[w0 proc'] t].
    unfold result, final in Hid, Hproc. simpl in Hid, Hproc. subst proc'.
    destruct (construct rest (mkProcess (add c 1))) as [ws proc''] eqn:Erest.
    destruct i as [|i]; simpl in Hnth.
    + injection Hnth as <-. rewrite Hid.
      rewrite WId_of_int_small;
        [lia | apply Hbits; now left | unfold INT_MAX in *; lia].
    + assert (Hrest : (0 < List.length rest)%nat).
      { destruct rest; [|simpl; lia].
        simpl in Erest. injection Erest as <- _. destruct i; discriminate. }
      assert (Hadd : add c 1 = c + 1).
      { apply wrap_int_id. unfold is_int, INT_MIN, INT_MAX in *. lia. }
      rewrite Hadd in Erest.
      replace (c + Z.of_nat (S i)) with ((c + 1) + Z.of_nat i) by lia.
      apply IH;
        [lia | unfold INT_MAX in *; lia | intros r' Hr'; apply Hbits; now right |].
      rewrite Erest. exact Hnth.
Qed.

Lemma construct_length (requests : list Request) :
  forall proc, List.length (fst (construct requests proc)) = List.length requests.
Proof.
  induction requests as [|r rest IH]; intros proc; [reflexivity|].
  simpl.
  destruct (UbuntuWindow_new _ _ _ _ proc) as [[w0 proc'] t].
  specialize (IH proc'). destruct (construct rest proc') as [ws proc''].
  simpl in *. now rewrite IH.
Qed.

(** C9: the windows a process constructs take their ids from a counter that
    starts at 1: the [i]-th window (counting from 0) has id [i + 1], so the
    ids are positive, increase with the order of construction and differ
    from one another.  The counter is an [int]; the statement covers the
    constructions it can count. *)
Theorem window_ids (requests : list Request) :
  Z.of_nat (List.length requests) <= INT_MAX ->
  (forall r, In r requests -> 31 <= pointer_bits (req_platform r)) ->
  let windows := fst (construct requests process_start) in
  List.length windows = List.length requests /\
  (forall i w, nth_error windows i = Some w ->
     winId w = Z.of_nat i + 1 /\ 0 < winId w) /\
  (forall i j wi wj,
     nth_error windows i = Some wi -> nth_error windows j = Some wj ->
     (i < j)%nat -> winId wi < winId wj) /\
  (forall i j wi wj,
     nth_error windows i = Some wi -> nth_error windows j = Some wj ->
     i <> j -> winId wi <> winId wj).
Proof.
  intros Hlen Hbits windows.
  assert (Hid : forall i w, nth_error windows i = Some w -> winId w = Z.of_nat i + 1).
  { intros i w Hnth. rewrite (construct_ids requests 1 i w); try assumption; lia. }
  split; [apply construct_length|].
  split; [intros i w Hnth; rewrite (Hid i w Hnth); lia|].
  split.
  - intros i j wi wj Hi Hj Hlt. rewrite (Hid i wi Hi), (Hid j wj Hj). lia.
  - intros i j wi wj Hi Hj Hne. rewrite (Hid i wi Hi), (Hid j wj Hj). lia.
Qed.

Lemma window_ids_witness :
  List.length Sample.three_windows = 3%nat /\
  winId (Sample.nth_window 0) = 1 /\
  winId (Sample.nth_window 0) < winId (Sample.nth_window 2) /\
  winId (Sample.nth_window 1) <> winId (Sample.nth_window 2).
Proof.
  destruct (window_ids Sample.three_requests) as (Hl & Hid & Hlt & Hne).
  - vm_compute. discriminate.
  - intros r Hr. simpl in Hr.
    destruct Hr as [<-|[<-|[<-|[]]]]; vm_compute; discriminate.
  - split; [exact Hl|].
    split; [apply (Hid 0%nat (Sample.nth_window 0)); reflexivity|].
    split.
    + apply (Hlt 0%nat 2%nat); [reflexivity | reflexivity | lia].
    + apply (Hne 1%nat 2%nat); [reflexivity | reflexivity | lia].
Defined.

(** * Further properties *)

(** ** Resize notifications and buffer swaps *)

Lemma calls_app (t1 t2 : Trace) : calls (t1 ++ t2) = calls t1 ++ calls t2.
Proof.
  induction t1 as [|e t1 IH]; [reflexivity|].
  destruct e; simpl; rewrite IH; reflexivity.
Qed.

Lemma exposes_app (c1 c2 : list Call) :
  exposes (c1 ++ c2) = (exposes c1 + exposes c2)%nat.
Proof.
  induction c1 as [|c c1 IH]; [reflexivity|].
  destruct c; simpl; rewrite IH; reflexivity.
Qed.

(** X1: A resize notification touches the catch-up counter and nothing else;
    with the stored buffer size it touches nothing and calls nothing. *)
Theorem handleSurfaceResize_frame (width height : Z) (w : UbuntuWindow) :
  let r := handleSurfaceResize width height w in
  (final r = w \/ final r = set_d_resizeCatchUpAttempts 2 w) /\
  d_bufferSize (final r) = d_bufferSize w /\
  geometry (final r) = geometry w /\
  (wd (d_bufferSize w) = width -> ht (d_bufferSize w) = height ->
     final r = w /\ calls (trace r) = []).
Proof.
  destruct w as [q g scr egl fmt i st conn surf [bw bh] ex n fr].
  cbv zeta. simpl wd. simpl ht. destruct ex.
  all: destruct (bw =? width) eqn:Ew; [destruct (bh =? height) eqn:Eh|].
  all: run; rewrite Ew; run; rewrite ?Eh; run.
  all: try (apply Z.eqb_neq in Ew); try (apply Z.eqb_neq in Eh).
  all: split; [first [now left | now right]|].
  all: split; [reflexivity|]; split; [reflexivity|].
  all: intros Hw Hh; first [contradiction | split; reflexivity].
Qed.

Lemma handleSurfaceResize_frame_witness :
  final (handleSurfaceResize 540 900 Sample.normal_window) = Sample.normal_window /\
  calls (trace (handleSurfaceResize 540 900 Sample.normal_window)) = [].
Proof.
  destruct (handleSurfaceResize_frame 540 900 Sample.normal_window)
    as (_ & _ & _ & H).
  apply H; reflexivity.
Defined.

(** What one buffer swap does, case by case. *)
Lemma swap_step (QT_NO_DEBUG : bool) (width height : Z) (w : UbuntuWindow) :
  let r := onBuffersSwapped_threadSafe QT_NO_DEBUG width height w in
  let w0 := if QT_NO_DEBUG then w
            else set_d_frameNumber (add (d_frameNumber w) 1) w in
  let known := (0 <? width) && (0 <? height) in
  let differs := negb (wd (d_bufferSize w) =? width)
                 || negb (ht (d_bufferSize w) =? height) in
  let g := Rect.setHeight height (Rect.setWidth width (geometry w)) in
  if known && differs then
    final r = set_geometry g
                (set_d_bufferSize (mkQSize width height)
                   (set_d_resizeCatchUpAttempts 0 w0)) /\
    calls (trace r) = [handleGeometryChange g Rect.null]
  else if 0 <? d_resizeCatchUpAttempts w then
    final r = set_d_resizeCatchUpAttempts (sub (d_resizeCatchUpAttempts w) 1) w0 /\
    calls (trace r) = [handleExposeEvent (exposeRect w)]
  else
    final r = w0 /\ calls (trace r) = [].
Proof.
  unfold exposeRect.
  destruct w as [q g scr egl fmt i st conn surf [bw bh] ex n fr].
  cbv zeta. simpl wd. simpl ht. simpl d_resizeCatchUpAttempts.
  destruct QT_NO_DEBUG, ex;
    destruct (0 <? width) eqn:Kw, (0 <? height) eqn:Kh;
    destruct (bw =? width) eqn:Ew, (bh =? height) eqn:Eh;
    destruct (0 <? n) eqn:En;
    run; rewrite ?Kw, ?Kh; run; rewrite ?Ew; run; rewrite ?Eh; run;
    rewrite ?En; run; split; reflexivity.
Qed.

(** X2: A swap that reports no usable size (a width or height that is not
    positive) never touches the buffer size or the geometry and never reports
    a geometry change, however much the size differs from the stored one; it
    only uses up a catch-up attempt, if one is left. *)
Theorem swap_unknown_size
    (QT_NO_DEBUG : bool) (width height : Z) (w : UbuntuWindow) :
  width <= 0 \/ height <= 0 ->
  let r := onBuffersSwapped_threadSafe QT_NO_DEBUG width height w in
  d_bufferSize (final r) = d_bufferSize w /\
  geometry (final r) = geometry w /\
  (0 < d_resizeCatchUpAttempts w ->
     d_resizeCatchUpAttempts (final r) = sub (d_resizeCatchUpAttempts w) 1 /\
     calls (trace r) = [handleExposeEvent (exposeRect w)]) /\
  (d_resizeCatchUpAttempts w <= 0 ->
     d_resizeCatchUpAttempts (final r) = d_resizeCatchUpAttempts w /\
     calls (trace r) = []).
Proof.
  intros Hunknown r. pose proof (swap_step QT_NO_DEBUG width height w) as H.
  cbv zeta in H. fold r in H.
  assert (Ek : (0 <? width) && (0 <? height) = false).
  { apply andb_false_iff. destruct Hunknown; [left | right]; apply Z.ltb_ge; lia. }
  rewrite Ek in H. simpl in H.
  destruct (0 <? d_resizeCatchUpAttempts w) eqn:En; destruct H as [E C].
  - apply Z.ltb_lt in En. rewrite E.
    split; [destruct QT_NO_DEBUG, w; reflexivity|].
    split; [destruct QT_NO_DEBUG, w; reflexivity|].
    split; [|intros; lia]. intros _.
    split; [destruct QT_NO_DEBUG, w; reflexivity | exact C].
  - apply Z.ltb_ge in En. rewrite E.
    split; [destruct QT_NO_DEBUG, w; reflexivity|].
    split; [destruct QT_NO_DEBUG, w; reflexivity|].
    split; [intros; lia|]. intros _.
    split; [destruct QT_NO_DEBUG, w; reflexivity | exact C].
Qed.

Lemma swap_unknown_size_witness :
  d_bufferSize (final (onBuffersSwapped_threadSafe true 0 800 (final Sample.resized)))
    = mkQSize 540 900 /\
  d_resizeCatchUpAttempts
    (final (onBuffersSwapped_threadSafe true 0 800 (final Sample.resized))) = 1.
Proof.
  destruct (swap_unknown_size true 0 800 (final Sample.resized)) as (Hb & _ & Hn & _).
  - left. lia.
  - split; [exact Hb|]. apply Hn. vm_compute. reflexivity.
Defined.

(** X3: After a swap that reports a usable size the stored buffer size is the
    reported size, whether it was so before or not. *)
Theorem swap_valid_size_stored
    (QT_NO_DEBUG : bool) (width height : Z) (w : UbuntuWindow) :
  0 < width -> 0 < height ->
  d_bufferSize (final (onBuffersSwapped_threadSafe QT_NO_DEBUG width height w))
    = mkQSize width height.
Proof.
  intros Hw Hh. pose proof (swap_step QT_NO_DEBUG width height w) as H.
  cbv zeta in H.
  assert (Ek : (0 <? width) && (0 <? height) = true).
  { apply andb_true_iff. split; apply Z.ltb_lt; lia. }
  rewrite Ek in H. simpl andb in H.
  destruct (negb (wd (d_bufferSize w) =? width)
            || negb (ht (d_bufferSize w) =? height)) eqn:Ed.
  - destruct H as [-> _]. reflexivity.
  - apply orb_false_iff in Ed. destruct Ed as [Ew Eh].
    apply negb_false_iff, Z.eqb_eq in Ew. apply negb_false_iff, Z.eqb_eq in Eh.
    assert (Hsame : d_bufferSize w = mkQSize width height).
    { destruct w as [q g scr egl fmt i st conn surf [bw bh] ex n fr].
      simpl in *. now subst. }
    destruct (0 <? d_resizeCatchUpAttempts w); destruct H as [-> _];
      rewrite <- Hsame; destruct QT_NO_DEBUG, w; reflexivity.
Qed.

Lemma swap_valid_size_stored_witness :
  d_bufferSize (final (onBuffersSwapped_threadSafe false 320 480 Sample.normal_window))
    = mkQSize 320 480.
Proof. apply swap_valid_size_stored; lia. Defined.

(** One swap: the expose events it emits and the attempts it leaves are
    together no more than the attempts it found. *)
Lemma swap_expose_budget
    (QT_NO_DEBUG : bool) (width height : Z) (w : UbuntuWindow) :
  is_int (d_resizeCatchUpAttempts w) ->
  let r := onBuffersSwapped_threadSafe QT_NO_DEBUG width height w in
  is_int (d_resizeCatchUpAttempts (final r)) /\
  (exposes (calls (trace r)) + Z.to_nat (d_resizeCatchUpAttempts (final r))
   <= Z.to_nat (d_resizeCatchUpAttempts w))%nat.
Proof.
  intros Hint r. pose proof (swap_step QT_NO_DEBUG width height w) as H.
  cbv zeta in H. fold r in H.
  destruct ((0 <? width) && (0 <? height)
            && (negb (wd (d_bufferSize w) =? width)
                || negb (ht (d_bufferSize w) =? height))).
  - destruct H as [E C]. rewrite E, C.
    replace (d_resizeCatchUpAttempts _) with 0
      by (destruct QT_NO_DEBUG, w; reflexivity).
    split; [unfold is_int, INT_MIN, INT_MAX; lia | simpl; lia].
  - destruct (0 <? d_resizeCatchUpAttempts w) eqn:En; destruct H as [E C].
    + apply Z.ltb_lt in En. rewrite E, C.
      replace (d_resizeCatchUpAttempts _) with (sub (d_resizeCatchUpAttempts w) 1)
        by (destruct QT_NO_DEBUG, w; reflexivity).
      unfold sub. rewrite wrap_int_id
        by (unfold is_int, INT_MIN, INT_MAX in *; lia).
      split; [unfold is_int, INT_MIN, INT_MAX in *; lia | simpl; lia].
    + rewrite E, C.
      replace (d_resizeCatchUpAttempts _) with (d_resizeCatchUpAttempts w)
        by (destruct QT_NO_DEBUG, w; reflexivity).
      split; [exact Hint | simpl; lia].
Qed.

(** X4: The forced redraws are bounded: over any run of buffer swaps, whatever
    sizes they report, the expose events emitted are no more than the
    catch-up attempts the window had when the run began. *)
Theorem swaps_expose_bound (QT_NO_DEBUG : bool) (sizes : list (Z * Z)) :
  forall w : UbuntuWindow,
    is_int (d_resizeCatchUpAttempts w) ->
    (exposes (calls (snd (perform_all QT_NO_DEBUG (swaps sizes) w)))
     <= Z.to_nat (d_resizeCatchUpAttempts w))%nat.
Proof.
  induction sizes as [|[width height] sizes IH]; intros w Hint; [simpl; lia|].
  simpl.
  destruct (swap_expose_budget QT_NO_DEBUG width height w Hint) as [Hint' Hb].
  destruct (onBuffersSwapped_threadSafe QT_NO_DEBUG width height w)
    as [[u w1] t1].
  unfold final, trace in Hint', Hb. simpl in Hint', Hb.
  specialize (IH w1 Hint').
  destruct (perform_all QT_NO_DEBUG (swaps sizes) w1) as [w2 t2].
  simpl in *. rewrite calls_app, exposes_app. lia.
Qed.

Lemma swaps_expose_bound_witness :
  (exposes (calls (snd (perform_all true (swaps Scenario.stale_sizes)
                          (final Sample.resized)))) <= 2)%nat.
Proof.
  apply (swaps_expose_bound true Scenario.stale_sizes (final Sample.resized)).
  vm_compute. split; discriminate.
Defined.

(** ** What the operations keep *)

Ltac run_ops :=
  run; cbv beta iota zeta delta [WindowState_eqb Bool.eqb]; run.

Ltac split_ops :=
  repeat match goal with
         | |- context [if ?c then _ else _] => destruct c eqn:?; run_ops
         end.

(** The members no operation writes. *)
Lemma perform_immutable (QT_NO_DEBUG : bool) (op : Operation) (w : UbuntuWindow) :
  let w' := final (perform QT_NO_DEBUG op w) in
  window w' = window w /\ d_screen w' = d_screen w /\
  d_eglSurface w' = d_eglSurface w /\ d_format w' = d_format w /\
  d_id w' = d_id w /\ d_connection w' = d_connection w /\
  d_surface w' = d_surface w.
Proof.
  destruct w as [q g scr egl fmt i st conn surf [bw bh] ex n fr].
  destruct op as [v|r|s|wi he|e|wi he]; try destruct s; destruct st;
    run_ops; split_ops; repeat split.
Qed.

(** The stored state and the exposed flag each have one writer. *)
Lemma perform_state_exposed
    (QT_NO_DEBUG : bool) (op : Operation) (w : UbuntuWindow) :
  let w' := final (perform QT_NO_DEBUG op w) in
  d_state w' = last_window_state [op] (d_state w) /\
  d_exposed w' = last_exposed [op] (d_exposed w).
Proof.
  destruct w as [q g scr egl fmt i st conn surf [bw bh] ex n fr].
  destruct op as [v|r|s|wi he|e|wi he]; try destruct s; try destruct e;
    destruct st, ex; run_ops; split_ops; split; reflexivity.
Qed.

(** The catch-up counter stays between 0 and 2. *)
Lemma perform_counter (QT_NO_DEBUG : bool) (op : Operation) (w : UbuntuWindow) :
  0 <= d_resizeCatchUpAttempts w <= 2 ->
  0 <= d_resizeCatchUpAttempts (final (perform QT_NO_DEBUG op w)) <= 2.
Proof.
  intros Hn.
  destruct op as [v|r|s|wi he|e|wi he].
  6: { pose proof (swap_step QT_NO_DEBUG wi he w) as H. cbv zeta in H.
       unfold perform.
       destruct ((0 <? wi) && (0 <? he)
                 && (negb (wd (d_bufferSize w) =? wi)
                     || negb (ht (d_bufferSize w) =? he))).
       - destruct H as [-> _]. destruct QT_NO_DEBUG, w; simpl; lia.
       - destruct (0 <? d_resizeCatchUpAttempts w) eqn:En; destruct H as [-> _].
         + apply Z.ltb_lt in En.
           replace (d_resizeCatchUpAttempts _)
             with (sub (d_resizeCatchUpAttempts w) 1)
             by (destruct QT_NO_DEBUG, w; reflexivity).
           unfold sub. rewrite wrap_int_id
             by (unfold is_int, INT_MIN, INT_MAX; lia). lia.
         + destruct QT_NO_DEBUG, w; exact Hn. }
  all: destruct w as [q g scr egl fmt i st conn surf [bw bh] ex n fr];
    simpl in Hn; try destruct s; try destruct e; destruct st, ex;
    run_ops; split_ops; first [exact Hn | lia].
Qed.

Lemma perform_all_step
    (QT_NO_DEBUG : bool) (op : Operation) (rest : list Operation) (w : UbuntuWindow) :
  fst (perform_all QT_NO_DEBUG (op :: rest) w)
    = fst (perform_all QT_NO_DEBUG rest (final (perform QT_NO_DEBUG op w))).
Proof.
  simpl. destruct (perform QT_NO_DEBUG op w) as [[u w1] t1].
  unfold final. simpl.
  destruct (perform_all QT_NO_DEBUG rest w1) as [w2 t2]. reflexivity.
Qed.

Lemma createWindow_fresh_members (p : Platform) (w : UbuntuWindow) :
  d_resizeCatchUpAttempts (final (createWindow p w)) = d_resizeCatchUpAttempts w /\
  d_exposed (final (createWindow p w)) = d_exposed w /\
  d_state (final (createWindow p w)) = d_state w /\
  d_frameNumber (final (createWindow p w)) = d_frameNumber w /\
  window (final (createWindow p w)) = window w /\
  d_screen (final (createWindow p w)) = d_screen w /\
  d_connection (final (createWindow p w)) = d_connection w.
Proof.
  destruct w as [q g scr egl fmt i st conn surf bs ex n fr].
  destruct st; run_create; split_create; repeat split.
Qed.

(** X5: The catch-up counter of a window is 0, 1 or 2 from its construction on,
    whatever operations it goes through. *)
Theorem catch_up_counter_range
    (QT_NO_DEBUG : bool) (p : Platform) (q : QWindow) (scr : UbuntuScreen)
    (conn : MirConnection) (proc : Process) (ops : list Operation) :
  let w := result (UbuntuWindow_new p q scr conn proc) in
  d_resizeCatchUpAttempts w = 0 /\
  0 <= d_resizeCatchUpAttempts (fst (perform_all QT_NO_DEBUG ops w)) <= 2.
Proof.
  intros w.
  assert (H0 : d_resizeCatchUpAttempts w = 0).
  { unfold w, UbuntuWindow_new, result.
    match goal with
    | |- context [createWindow p ?w0] =>
        destruct (createWindow_fresh_members p w0) as (Hn & _);
        destruct (createWindow p w0) as [[u w'] t]
    end.
    exact Hn. }
  split; [exact H0|].
  assert (Hr : 0 <= d_resizeCatchUpAttempts w <= 2) by lia.
  clear H0. generalize dependent w. intros w. revert w.
  induction ops as [|op ops IH]; intros w Hr; [exact Hr|].
  rewrite perform_all_step. apply IH. now apply perform_counter.
Qed.

(** X6: No operation changes the window id, the surface handles, the format, the
    screen, the connection or the [QWindow]: [winId()] answers the same
    throughout the window's life. *)
Theorem operations_keep_identity
    (QT_NO_DEBUG : bool) (ops : list Operation) (w : UbuntuWindow) :
  let w' := fst (perform_all QT_NO_DEBUG ops w) in
  winId w' = winId w /\ d_surface w' = d_surface w /\
  d_eglSurface w' = d_eglSurface w /\ d_format w' = d_format w /\
  d_screen w' = d_screen w /\ d_connection w' = d_connection w /\
  window w' = window w.
Proof.
  revert w. induction ops as [|op ops IH]; intros w; [repeat split|].
  cbv zeta. rewrite perform_all_step.
  destruct (IH (final (perform QT_NO_DEBUG op w))) as (I1 & I2 & I3 & I4 & I5 & I6 & I7).
  destruct (perform_immutable QT_NO_DEBUG op w) as (P1 & P2 & P3 & P4 & P5 & P6 & P7).
  unfold winId in *.
  repeat split; congruence.
Qed.

Lemma last_window_state_cons (op : Operation) (ops : list Operation) (st : WindowState) :
  last_window_state (op :: ops) st = last_window_state ops (last_window_state [op] st).
Proof. destruct op; reflexivity. Qed.

Lemma last_exposed_cons (op : Operation) (ops : list Operation) (e : bool) :
  last_exposed (op :: ops) e = last_exposed ops (last_exposed [op] e).
Proof. destruct op; reflexivity. Qed.

(** X7: After any sequence of operations the stored window state is the one the
    last [setWindowState] asked for and the exposed flag is the one the last
    expose-change notification carried (the initial ones when there was no
    such operation): showing, hiding, moving, resizing and swapping change
    neither. *)
Theorem state_and_exposed_follow_last_request
    (QT_NO_DEBUG : bool) (ops : list Operation) (w : UbuntuWindow) :
  d_state (fst (perform_all QT_NO_DEBUG ops w)) = last_window_state ops (d_state w) /\
  d_exposed (fst (perform_all QT_NO_DEBUG ops w)) = last_exposed ops (d_exposed w) /\
  forall visible,
    isExposed visible (fst (perform_all QT_NO_DEBUG ops w))
      = last_exposed ops (d_exposed w) && visible.
Proof.
  assert (H : d_state (fst (perform_all QT_NO_DEBUG ops w))
                = last_window_state ops (d_state w) /\
              d_exposed (fst (perform_all QT_NO_DEBUG ops w))
                = last_exposed ops (d_exposed w)).
  { revert w. induction ops as [|op ops IH]; intros w; [split; reflexivity|].
    rewrite perform_all_step, last_window_state_cons, last_exposed_cons.
    destruct (perform_state_exposed QT_NO_DEBUG op w) as [Hs He].
    cbv zeta in Hs, He. rewrite <- Hs, <- He. apply IH. }
  destruct H as [Hs He]. split; [exact Hs|]. split; [exact He|].
  intros visible. unfold isExposed. rewrite He. reflexivity.
Qed.

(** X8: A converged window stays quiet: with no catch-up attempt owed, any
    number of swaps that report the stored buffer size make no call at all
    and leave every member as it is (the frame counter of a debug build
    apart). *)
Theorem converged_swaps_silent
    (QT_NO_DEBUG : bool) (n : nat) (w : UbuntuWindow) :
  d_resizeCatchUpAttempts w <= 0 ->
  let same := (wd (d_bufferSize w), ht (d_bufferSize w)) in
  calls (snd (perform_all QT_NO_DEBUG (swaps (repeat same n)) w)) = [] /\
  forget_frameNumber (fst (perform_all QT_NO_DEBUG (swaps (repeat same n)) w))
    = forget_frameNumber w.
Proof.
  intros Hn same. subst same. revert w Hn.
  induction n as [|n IH]; intros w Hn; [split; reflexivity|].
  simpl repeat. simpl swaps. fold (swaps (repeat (wd (d_bufferSize w), ht (d_bufferSize w)) n)).
  simpl perform_all. simpl fst. simpl snd.
  destruct (swap_same_size QT_NO_DEBUG w) as [_ Hsame].
  destruct (Hsame Hn) as [E C]. clear Hsame.
  destruct (onBuffersSwapped_threadSafe QT_NO_DEBUG (wd (d_bufferSize w))
              (ht (d_bufferSize w)) w) as [[u w1] t1].
  unfold final, trace in E, C. simpl in E, C.
  assert (Hb : d_bufferSize w1 = d_bufferSize w)
    by (rewrite E; destruct QT_NO_DEBUG, w; reflexivity).
  assert (Hn1 : d_resizeCatchUpAttempts w1 <= 0).
  { replace (d_resizeCatchUpAttempts w1) with (d_resizeCatchUpAttempts w)
      by (rewrite E; destruct QT_NO_DEBUG, w; reflexivity).
    exact Hn. }
  assert (Hf : forget_frameNumber w1 = forget_frameNumber w)
    by (rewrite E; destruct QT_NO_DEBUG, w; reflexivity).
  specialize (IH w1 Hn1). rewrite Hb in IH.
  destruct (perform_all QT_NO_DEBUG
              (swaps (repeat (wd (d_bufferSize w), ht (d_bufferSize w)) n)) w1)
    as [w2 t2].
  simpl in *. destruct IH as [IH1 IH2].
  rewrite calls_app, C, IH1, IH2, Hf. split; reflexivity.
Qed.

Lemma converged_swaps_silent_witness :
  calls (snd (perform_all false (swaps (repeat (540, 900) 5)) Sample.normal_window))
    = [].
Proof.
  destruct (converged_swaps_silent false 5 Sample.normal_window) as [H _].
  - vm_compute. discriminate.
  - exact H.
Defined.

(** ** Expose changes, visibility and geometry *)

(** X9: An expose-change notification stores its flag.  When the flag is new it
    emits one expose event, with the null rectangle for "not exposed", and
    the flush; when the flag is the stored one it changes nothing and calls
    nothing, so a repeated notification is silent. *)
Theorem handleSurfaceExposeChange_effect (exposed : bool) (w : UbuntuWindow) :
  let r := handleSurfaceExposeChange exposed w in
  final r = set_d_exposed exposed w /\
  (d_exposed w = exposed -> final r = w /\ calls (trace r) = []) /\
  (d_exposed w <> exposed ->
     calls (trace r)
       = [ handleExposeEvent
             (if exposed
              then Rect.of_point_size QPoint_null (Rect.size (geometry w))
              else Rect.null);
           flushWindowSystemEvents ]) /\
  final (handleSurfaceExposeChange exposed (final r)) = final r /\
  calls (trace (handleSurfaceExposeChange exposed (final r))) = [].
Proof.
  destruct w as [q g scr egl fmt i st conn surf bs ex n fr].
  destruct exposed, ex; cbv zeta; simpl d_exposed;
    (split; [reflexivity|]);
    (split; [intros H; first [discriminate H | split; reflexivity]|]);
    (split; [intros H; first [congruence | reflexivity]|]);
    split; reflexivity.
Qed.

Lemma handleSurfaceExposeChange_effect_witness :
  calls (trace (handleSurfaceExposeChange false Sample.normal_window))
    = [handleExposeEvent Rect.null; flushWindowSystemEvents] /\
  final (handleSurfaceExposeChange true Sample.normal_window) = Sample.normal_window.
Proof.
  split.
  - destruct (handleSurfaceExposeChange_effect false Sample.normal_window)
      as (_ & _ & H & _).
    apply H. vm_compute. discriminate.
  - destruct (handleSurfaceExposeChange_effect true Sample.normal_window)
      as (_ & H & _).
    apply H. reflexivity.
Defined.

(** X10: Hiding and then showing a window issues two state requests, the minimized
    state and then the state that matches the stored window state, and
    changes no member of the window; for a window whose stored state is
    minimized, showing asks for the minimized state as hiding does. *)
Theorem hide_then_show (w : UbuntuWindow) :
  let r1 := setVisible false w in
  let r2 := setVisible true (final r1) in
  final r1 = w /\ final r2 = w /\
  state_requests (calls (trace r1) ++ calls (trace r2))
    = [mir_surface_state_minimized; qtWindowStateToMirSurfaceState (d_state w)] /\
  (d_state w = WindowMinimized ->
     state_requests (calls (trace r2)) = state_requests (calls (trace r1))).
Proof.
  destruct w as [q g scr egl fmt i st conn surf bs ex n fr].
  cbv zeta. simpl d_state.
  split; [destruct ex; reflexivity|].
  split; [destruct ex; reflexivity|].
  split; [destruct ex; reflexivity|].
  intros ->. destruct ex; reflexivity.
Qed.

Lemma hide_then_show_witness :
  state_requests (calls (trace (setVisible true
      (final (setVisible false (Sample.fresh WindowMinimized Sample.connection))))))
    = state_requests (calls (trace
        (setVisible false (Sample.fresh WindowMinimized Sample.connection)))).
Proof.
  destruct (hide_then_show (Sample.fresh WindowMinimized Sample.connection))
    as (_ & _ & _ & H).
  apply H. reflexivity.
Defined.

(** X11: [setGeometry] stores the rectangle and never reaches the compositor or
    the toolkit, in any window state: it makes no call and changes no other
    member. *)
Theorem setGeometry_local (rect : QRect) (w : UbuntuWindow) :
  final (setGeometry rect w) = set_geometry rect w /\
  geometry (final (setGeometry rect w)) = rect /\
  calls (trace (setGeometry rect w)) = [].
Proof.
  destruct w as [q g scr egl fmt i st conn surf bs ex n fr].
  destruct st; repeat split.
Qed.

(** X12: The compositor's buffer size overrides the size given to [setGeometry]
    and keeps its origin: after [setGeometry(rect)] and a swap with a usable
    size that is not the stored buffer size, the geometry has the corner of
    [rect] and the size of the buffer. *)
Theorem setGeometry_then_swap
    (QT_NO_DEBUG : bool) (rect : QRect) (width height : Z) (w : UbuntuWindow) :
  0 < width <= INT_MAX -> 0 < height <= INT_MAX ->
  wd (d_bufferSize w) <> width \/ ht (d_bufferSize w) <> height ->
  let w' := final (onBuffersSwapped_threadSafe QT_NO_DEBUG width height
                     (final (setGeometry rect w))) in
  Rect.x (geometry w') = Rect.x rect /\ Rect.y (geometry w') = Rect.y rect /\
  Rect.width (geometry w') = width /\ Rect.height (geometry w') = height /\
  Rect.size (geometry w') = d_bufferSize w'.
Proof.
  intros Hw Hh Hdiff w'.
  assert (Eg : final (setGeometry rect w) = set_geometry rect w).
  { destruct w as [q g scr egl fmt i st conn surf bs ex n fr].
    destruct st; reflexivity. }
  pose proof (swap_step QT_NO_DEBUG width height (final (setGeometry rect w))) as H.
  cbv zeta in H. fold w' in H. rewrite Eg in H.
  assert (Ek : (0 <? width) && (0 <? height) = true).
  { apply andb_true_iff. split; apply Z.ltb_lt; lia. }
  assert (Ed : negb (wd (d_bufferSize (set_geometry rect w)) =? width)
               || negb (ht (d_bufferSize (set_geometry rect w)) =? height) = true).
  { replace (d_bufferSize (set_geometry rect w)) with (d_bufferSize w)
      by (destruct w; reflexivity).
    apply orb_true_iff.
    destruct Hdiff as [Hd|Hd]; [left | right];
      apply negb_true_iff, Z.eqb_neq; exact Hd. }
  rewrite Ek, Ed in H. simpl andb in H. cbv iota in H. destruct H as [E _].
  assert (Hiw : is_int width) by (unfold is_int, INT_MIN, INT_MAX in *; lia).
  assert (Hih : is_int height) by (unfold is_int, INT_MIN, INT_MAX in *; lia).
  assert (Eg' : geometry w' = Rect.setHeight height (Rect.setWidth width rect)).
  { rewrite E. destruct QT_NO_DEBUG, w; reflexivity. }
  assert (Eb : d_bufferSize w' = mkQSize width height).
  { rewrite E. destruct QT_NO_DEBUG, w; reflexivity. }
  assert (Ew : Rect.width (geometry w') = width).
  { rewrite Eg', width_setHeight. now apply width_setWidth. }
  assert (Eh : Rect.height (geometry w') = height).
  { rewrite Eg'. now apply height_setHeight. }
  split; [rewrite Eg'; reflexivity|]. split; [rewrite Eg'; reflexivity|].
  split; [exact Ew|]. split; [exact Eh|].
  unfold Rect.size. rewrite Ew, Eh, Eb. reflexivity.
Qed.

Lemma setGeometry_then_swap_witness :
  Rect.y (geometry (final (onBuffersSwapped_threadSafe true 540 800
            (final (setGeometry (Rect.make 5 7 100 100) Sample.normal_window)))))
    = 7 /\
  Rect.height (geometry (final (onBuffersSwapped_threadSafe true 540 800
            (final (setGeometry (Rect.make 5 7 100 100) Sample.normal_window)))))
    = 800.
Proof.
  destruct (setGeometry_then_swap true (Rect.make 5 7 100 100) 540 800
              Sample.normal_window) as (_ & Hy & _ & Hh & _).
  - unfold INT_MAX. lia.
  - unfold INT_MAX. lia.
  - right. vm_compute. discriminate.
  - split; [exact Hy | exact Hh].
Defined.

(** ** More on window creation *)

(** X13: The rectangle resolved for the other window states: the screen's full
    geometry, unmodified, for a fullscreen window; the window's current
    geometry with its Y origin replaced by [panelHeight] for a window that
    is neither fullscreen nor maximized. *)
Theorem surfaceGeometry_fullscreen_regular (panelHeight : Z) (w : UbuntuWindow) :
  (d_state w = WindowFullScreen ->
     result (surfaceGeometry panelHeight w) = screen_geometry (d_screen w)) /\
  (d_state w <> WindowFullScreen -> d_state w <> WindowMaximized ->
     result (surfaceGeometry panelHeight w) = Rect.setY panelHeight (geometry w) /\
     Rect.y (result (surfaceGeometry panelHeight w)) = panelHeight) /\
  final (surfaceGeometry panelHeight w) = w.
Proof.
  destruct w as [q g scr egl fmt i st conn surf bs ex n fr]. simpl d_state.
  split; [intros ->; reflexivity|].
  split; [|destruct st; reflexivity].
  intros H1 H2. destruct st; try contradiction; split; reflexivity.
Qed.

Lemma surfaceGeometry_fullscreen_regular_witness :
  result (surfaceGeometry 26 (Sample.fresh WindowFullScreen Sample.connection))
    = screen_geometry Sample.screen /\
  Rect.y (result (surfaceGeometry 26 Sample.normal_window)) = 26.
Proof.
  split.
  - destruct (surfaceGeometry_fullscreen_regular 26
                (Sample.fresh WindowFullScreen Sample.connection)) as (H & _).
    apply H. reflexivity.
  - destruct (surfaceGeometry_fullscreen_regular 26 Sample.normal_window)
      as (_ & H & _).
    apply H; vm_compute; discriminate.
Defined.

(** X14: During creation the compositor is asked for a surface state only for a
    fullscreen window, and then once, for the fullscreen state. *)
Theorem creation_state_requests (p : Platform) (w : UbuntuWindow) :
  state_requests (calls (trace (createWindow p w)))
    = if WindowState_eqb (d_state w) WindowFullScreen
      then [mir_surface_state_fullscreen] else [].
Proof.
  destruct w as [q g scr egl fmt i st conn surf bs ex n fr].
  destruct st; run_create; split_create; reflexivity.
Qed.

(** X15: The size the compositor reports wins: after creation the buffer size and
    the size of the window's geometry are the reported width and height,
    whatever size was asked for; the origin is the resolved one. *)
Theorem created_size_is_reported (p : Platform) (w : UbuntuWindow) :
  is_int (parameters_width (d_connection w)) ->
  is_int (parameters_height (d_connection w)) ->
  let w' := final (createWindow p w) in
  let g0 := result (surfaceGeometry (panelHeight p) w) in
  d_bufferSize w'
    = mkQSize (parameters_width (d_connection w)) (parameters_height (d_connection w)) /\
  Rect.size (geometry w') = d_bufferSize w' /\
  Rect.x (geometry w') = Rect.x g0 /\ Rect.y (geometry w') = Rect.y g0.
Proof.
  intros Hw Hh.
  destruct w as [q g scr egl fmt i st conn surf bs ex n fr].
  simpl d_connection in *. cbv zeta.
  assert (Hsize : forall r,
            Rect.size (Rect.setHeight (parameters_height conn)
                         (Rect.setWidth (parameters_width conn) r))
            = mkQSize (parameters_width conn) (parameters_height conn)).
  { intros r. unfold Rect.size.
    rewrite width_setHeight, width_setWidth, height_setHeight by assumption.
    reflexivity. }
  destruct st; run_create; split_create;
    rewrite !Hsize; repeat split.
Qed.

Lemma created_size_is_reported_witness :
  d_bufferSize (final (createWindow Sample.platform Sample.maximized_window))
    = mkQSize 540 900.
Proof.
  destruct (created_size_is_reported Sample.platform Sample.maximized_window)
    as (H & _).
  - vm_compute. split; discriminate.
  - vm_compute. split; discriminate.
  - exact H.
Defined.

(** X16: A constructed window has its compositor surface and its EGL surface, is
    exposed, owes no catch-up attempt, stores the [QWindow]'s state and the
    format of the chosen EGL configuration, and its buffer size is the size
    of its geometry. *)
Theorem constructed_window
    (p : Platform) (q : QWindow) (scr : UbuntuScreen) (conn : MirConnection)
    (proc : Process) :
  let w := result (UbuntuWindow_new p q scr conn proc) in
  d_surface w = Some (created_surface conn) /\
  d_eglSurface w = Some (egl_window_surface p) /\
  d_exposed w = true /\ d_resizeCatchUpAttempts w = 0 /\
  d_state w = windowState q /\ d_format w = config_format p /\
  d_bufferSize w = Rect.size (geometry w) /\
  window w = q /\ d_screen w = scr /\ d_connection w = conn.
Proof.
  unfold UbuntuWindow_new, result.
  destruct proc as [sid]. destruct q as [rf ws wg ti ro]. simpl.
  destruct ws; run_create; split_create; repeat split.
Qed.

(** X17: The order of the creation protocol: one surface specification, sized as
    the resolved geometry and of the input-method kind exactly when the role
    is 7, is named and used for one surface-creation request; the event
    handler is registered and the specification released before the EGL
    surface is created; the size query and the geometry notification come
    last.  A null title becomes "Window 1". *)
Theorem creation_protocol (p : Platform) (w : UbuntuWindow) :
  let r := createWindow p w in
  let g0 := result (surfaceGeometry (panelHeight p) w) in
  let name := match title (window w) with
              | Some t => t
              | None => "Window 1"%string
              end in
  let keyboard := match role_property (window w) with
                  | Some role => wrap_int role =? SCREEN_KEYBOARD_ROLE
                  | None => false
                  end in
  exists (warning : list Call) (msg : string) (spec : Call),
    calls (trace r)
      = printf msg :: warning
        ++ [ spec; mir_surface_spec_set_name name; mir_surface_create;
             mir_surface_set_event_handler; mir_surface_spec_release;
             eglCreateWindowSurface ]
        ++ (if WindowState_eqb (d_state w) WindowFullScreen
            then [mir_surface_set_state mir_surface_state_fullscreen] else [])
        ++ [ mir_surface_get_parameters;
             handleGeometryChange (geometry (final r)) Rect.null ] /\
    (warning = [] \/
     warning = [qWarning "[ubuntumirclient QPA] can't find a valid pixel format"]) /\
    spec_sizes [spec] = [(Rect.width g0, Rect.height g0)] /\
    is_input_method_spec spec = keyboard /\
    is_normal_surface_spec spec = negb keyboard.
Proof.
  destruct w as [q g scr egl fmt i st conn surf bs ex n fr].
  destruct q as [rf ws wg ti ro]. cbv zeta. simpl title. simpl role_property.
  simpl d_state.
  destruct st, ti as [t|], ro as [role|];
    try destruct (wrap_int role =? SCREEN_KEYBOARD_ROLE) eqn:Er;
    run_create; cbv beta iota delta [role_property title];
    rewrite ?Er; try change (1 =? SCREEN_KEYBOARD_ROLE) with false; run;
    destruct (0 <? alphaBufferSize fmt); run;
    match goal with
    | |- context [first_available ?c ?a] => destruct (first_available c a); run
    end;
    first
      [ exists (@nil Call); do 2 eexists; split; [reflexivity|];
        split; [now left|]; repeat split
      | exists [qWarning "[ubuntumirclient QPA] can't find a valid pixel format"];
        do 2 eexists; split; [reflexivity|];
        split; [now right|]; repeat split ].
Qed.

(** ** More on the pixel format *)





Ltac avail_hyps :=
  repeat match goal with
         | H : is_available _ _ = true |- _ => apply is_available_In in H
         | H : is_available _ _ = false |- _ => apply is_available_not_In in H
         end.

(** X19: What the negotiator returns is the invalid sentinel, with one warning,
    exactly when no candidate from the starting index on is supported;
    otherwise it is a supported candidate, returned without a warning, and no
    supported candidate from the starting index on comes before it in the
    candidate list.  The state it runs in is left alone. *)
Theorem getPixelFormat_result
    (S : Type) (connection : MirConnection) (hasAlpha : bool) (s : S) :
  let r := getPixelFormat connection hasAlpha s in
  let eligible := skipn (if hasAlpha then 0 else 2)%nat formats in
  final r = s /\
  ((result r = mir_pixel_format_invalid /\
    warnings (calls (trace r))
      = ["[ubuntumirclient QPA] can't find a valid pixel format"%string] /\
    forall c, In c eligible -> ~ In c (available_surface_formats connection))
   \/
   (result r <> mir_pixel_format_invalid /\ calls (trace r) = [] /\
    In (result r) eligible /\
    In (result r) (available_surface_formats connection) /\
    forall c, In c eligible -> In c (available_surface_formats connection) ->
              (priority (result r) <= priority c)%nat)).
Proof.
  cbv zeta. unfold getPixelFormat.
  destruct hasAlpha; unfold formats; cbn [skipn first_available].
  - destruct (is_available mir_pixel_format_argb_8888
                (available_surface_formats connection)) eqn:E1;
      [|destruct (is_available mir_pixel_format_abgr_8888
                    (available_surface_formats connection)) eqn:E2;
        [|destruct (is_available mir_pixel_format_xrgb_8888
                      (available_surface_formats connection)) eqn:E3;
          [|destruct (is_available mir_pixel_format_xbgr_8888
                        (available_surface_formats connection)) eqn:E4;
            [|destruct (is_available mir_pixel_format_bgr_888
                          (available_surface_formats connection)) eqn:E5]]]].
    all: avail_hyps; (split; [reflexivity|]).
    6: { left. split; [reflexivity|]. split; [reflexivity|].
         intros c Hc.
         repeat (destruct Hc as [<-|Hc]; [assumption|]). contradiction. }
    all: right; split; [cbv; discriminate|]; split; [reflexivity|];
      split; [cbv; tauto|]; split; [assumption|];
      intros c Hc Hin;
      repeat (destruct Hc as [<-|Hc]; [first [contradiction | cbv; lia]|]);
      contradiction.
  - destruct (is_available mir_pixel_format_xrgb_8888
                (available_surface_formats connection)) eqn:E3;
      [|destruct (is_available mir_pixel_format_xbgr_8888
                    (available_surface_formats connection)) eqn:E4;
        [|destruct (is_available mir_pixel_format_bgr_888
                      (available_surface_formats connection)) eqn:E5]].
    all: avail_hyps; (split; [reflexivity|]).
    4: { left. split; [reflexivity|]. split; [reflexivity|].
         intros c Hc.
         repeat (destruct Hc as [<-|Hc]; [assumption|]). contradiction. }
    all: right; split; [cbv; discriminate|]; split; [reflexivity|];
      split; [cbv; tauto|]; split; [assumption|];
      intros c Hc Hin;
      repeat (destruct Hc as [<-|Hc]; [first [contradiction | cbv; lia]|]);
      contradiction.
Qed.

(** X20: The fallback of the comment above [getPixelFormat]: when alpha is wanted
    and the connection supports neither ARGB_8888 nor ABGR_8888, the result
    is the one for a window that does not want alpha. *)
Theorem getPixelFormat_opaque_fallback
    (S : Type) (connection : MirConnection) (s : S) :
  ~ In mir_pixel_format_argb_8888 (available_surface_formats connection) ->
  ~ In mir_pixel_format_abgr_8888 (available_surface_formats connection) ->
  getPixelFormat connection true s = getPixelFormat connection false s.
Proof.
  intros H1 H2. unfold getPixelFormat. simpl.
  apply is_available_not_In in H1. apply is_available_not_In in H2.
  rewrite H1, H2. reflexivity.
Qed.

Lemma getPixelFormat_opaque_fallback_witness :
  result (getPixelFormat (S := unit)
            (mkConnection [mir_pixel_format_bgr_888; mir_pixel_format_xbgr_8888] 1 0 0)
            true tt)
    = mir_pixel_format_xbgr_8888.
Proof.
  rewrite (getPixelFormat_opaque_fallback unit
             (mkConnection [mir_pixel_format_bgr_888; mir_pixel_format_xbgr_8888] 1 0 0) tt).
  - reflexivity.
  - simpl. intros [H|[H|[]]]; discriminate.
  - simpl. intros [H|[H|[]]]; discriminate.
Defined.

Lemma getPixelFormat_result_witness :
  result (getPixelFormat (S := unit) Sample.connection_rgb565 false tt)
    = mir_pixel_format_invalid.
Proof.
  destruct (getPixelFormat_result unit Sample.connection_rgb565 false tt)
    as [_ [(H & _)|(_ & _ & _ & Hin & _)]].
  - exact H.
  - exfalso. simpl in Hin. destruct Hin as [Hin|[]].
    vm_compute in Hin. discriminate Hin.
Defined.

(** ** Destruction *)

(** [destroyEGLSurface] destroys the EGL surface once: a second call finds
    [EGL_NO_SURFACE] and makes no call. *)
Lemma destroyEGLSurface_once (w : UbuntuWindow) :
  d_eglSurface (fst (destroyEGLSurface w)) = None /\
  snd (destroyEGLSurface (fst (destroyEGLSurface w))) = [].
Proof.
  unfold destroyEGLSurface.
  destruct w as [q g scr egl fmt i st conn surf bs ex n fr].
  destruct egl; simpl; split; reflexivity.
Qed.

Lemma perform_all_handles
    (QT_NO_DEBUG : bool) (ops : list Operation) (w : UbuntuWindow) :
  d_surface (fst (perform_all QT_NO_DEBUG ops w)) = d_surface w /\
  d_eglSurface (fst (perform_all QT_NO_DEBUG ops w)) = d_eglSurface w.
Proof.
  revert w. induction ops as [|op ops IH]; intros w; [split; reflexivity|].
  rewrite perform_all_step.
  destruct (IH (final (perform QT_NO_DEBUG op w))) as [I1 I2].
  destruct (perform_immutable QT_NO_DEBUG op w) as (_ & _ & P3 & _ & _ & _ & P7).
  split; congruence.
Qed.

Lemma UbuntuWindow_new_handles
    (p : Platform) (q : QWindow) (scr : UbuntuScreen) (conn : MirConnection)
    (proc : Process) :
  d_surface (result (UbuntuWindow_new p q scr conn proc))
    = Some (created_surface conn) /\
  d_eglSurface (result (UbuntuWindow_new p q scr conn proc))
    = Some (egl_window_surface p).
Proof.
  unfold UbuntuWindow_new, result.
  destruct proc as [sid]. destruct q as [rf ws wg ti ro]. simpl.
  destruct ws; run_create; split_create; split; reflexivity.
Qed.

(** X21: Every window that was constructed is torn down in full, whatever
    happened to it in between: the destructor destroys the EGL surface that
    [eglCreateWindowSurface] returned and then releases the compositor surface
    that the creation callback stored, in that order, and a repeated
    [destroyEGLSurface] destroys nothing more. *)
Theorem teardown_releases_what_was_created
    (QT_NO_DEBUG : bool) (p : Platform) (q : QWindow) (scr : UbuntuScreen)
    (conn : MirConnection) (proc : Process) (ops : list Operation) :
  let w := fst (perform_all QT_NO_DEBUG ops
                  (result (UbuntuWindow_new p q scr conn proc))) in
  UbuntuWindow_delete w
    = [ eglDestroySurface (egl_window_surface p);
        mir_surface_release_sync (Some (created_surface conn)) ] /\
  snd (destroyEGLSurface (fst (destroyEGLSurface w))) = [].
Proof.
  intros w.
  destruct (UbuntuWindow_new_handles p q scr conn proc) as (Hs & He).
  destruct (perform_all_handles QT_NO_DEBUG ops
              (result (UbuntuWindow_new p q scr conn proc))) as (Hs' & He').
  fold w in Hs', He'. rewrite Hs in Hs'. rewrite He in He'.
  split; [|apply destroyEGLSurface_once].
  unfold UbuntuWindow_delete, destroyEGLSurface. rewrite He'.
  replace (d_surface (set_d_eglSurface None w)) with (d_surface w)
    by (destruct w; reflexivity).
  rewrite Hs'. reflexivity.
Qed.

(** ** The application list model *)

Module ApplicationListModelFacts.

Import ApplicationListModel.

(** X22: [data] answers for the rows 0 to [rowCount - 1] under role 0, and for
    nothing else: a negative row, a row past the end and any other role give
    the invalid variant; under a valid parent the model has no rows. *)
Theorem data_defined_on_rows (row role : Z) (applications_ : list nat) :
  (data row role applications_ <> None
   <-> 0 <= row < rowCount false applications_ /\ role = 0) /\
  rowCount true applications_ = 0.
Proof.
  split; [|reflexivity].
  unfold data, rowCount, size. simpl negb. cbv iota.
  destruct (0 <=? row) eqn:E0; [apply Z.leb_le in E0 | apply Z.leb_gt in E0];
    destruct (row <? Z.of_nat (List.length applications_)) eqn:E1;
    [apply Z.ltb_lt in E1 | apply Z.ltb_ge in E1
     | apply Z.ltb_lt in E1 | apply Z.ltb_ge in E1];
    destruct (role =? 0) eqn:E2;
    [apply Z.eqb_eq in E2 | apply Z.eqb_neq in E2
     | apply Z.eqb_eq in E2 | apply Z.eqb_neq in E2
     | apply Z.eqb_eq in E2 | apply Z.eqb_neq in E2
     | apply Z.eqb_eq in E2 | apply Z.eqb_neq in E2];
    simpl; split; try (intros H; exfalso; first [now apply H | lia]);
    try (intros [H1 H2]; exfalso; first [lia | contradiction]).
  - intros _. split; [lia | exact E2].
  - intros _. apply nth_error_Some. lia.
Qed.

Lemma data_defined_on_rows_witness :
  data 1 0 [4; 5]%nat <> None /\ ~ (data 2 0 [4; 5]%nat <> None).
Proof.
  split.
  - destruct (data_defined_on_rows 1 0 [4; 5]%nat) as [[_ H] _].
    apply H. vm_compute. repeat split; discriminate.
  - destruct (data_defined_on_rows 2 0 [4; 5]%nat) as [[H _] _].
    intros Hd. apply H in Hd. vm_compute in Hd.
    destruct Hd as [[_ Hlt] _]. discriminate Hlt.
Defined.



(** What the loop of [remove] finds. *)
Lemma remove_first_spec (application : nat) (l : list nat) :
  forall i,
    match remove_first i application l with
    | Some (j, kept) =>
        exists before after,
          l = before ++ application :: after /\ ~ In application before /\
          kept = before ++ after /\ j = i + Z.of_nat (List.length before)
    | None => ~ In application l
    end.
Proof.
  induction l as [|a l IH]; intros i; simpl; [tauto|].
  destruct (Nat.eqb a application) eqn:E.
  - apply Nat.eqb_eq in E. subst a.
    exists [], l. simpl. repeat split; [tauto | lia].
  - apply Nat.eqb_neq in E. specialize (IH (i + 1)).
    destruct (remove_first (i + 1) application l) as [[j kept]|].
    + destruct IH as (before & after & -> & Hnot & -> & ->).
      exists (a :: before), after. simpl.
      repeat split; [intros [H|H]; [congruence | contradiction] | lia].
    + intros [H|H]; [congruence | contradiction].
Qed.



(** X25: Adding an application that the model does not hold and removing it again
    gives the model back, and the row signalled as removed is the row that
    was signalled as inserted. *)
Theorem add_then_remove (application : nat) (applications_ : list nat) :
  ~ In application applications_ ->
  fst (remove application (fst (add application applications_))) = applications_ /\
  snd (remove application (fst (add application applications_)))
    = [ beginRemoveRows (size applications_) (size applications_); endRemoveRows ].
Proof.
  intros Hnot. unfold add. simpl fst. unfold remove.
  pose proof (remove_first_spec application (applications_ ++ [application]) 0) as H.
  destruct (remove_first 0 application (applications_ ++ [application]))
    as [[j kept]|].
  - destruct H as (before & after & Heq & Hb & -> & ->).
    assert (Hlen : ~ (List.length before < List.length applications_)%nat).
    { intros Hlt.
      assert (Hin : nth_error (applications_ ++ [application]) (List.length before)
                    = Some application).
      { rewrite Heq, nth_error_app2, Nat.sub_diag by lia. reflexivity. }
      rewrite nth_error_app1 in Hin by exact Hlt.
      apply nth_error_In in Hin. contradiction. }
    assert (Hsz : List.length (applications_ ++ [application])
                  = List.length (before ++ application :: after)) by now rewrite Heq.
    rewrite !length_app in Hsz. simpl in Hsz.
    assert (Hafter : after = []) by (destruct after; [reflexivity | simpl in Hsz; lia]).
    subst after. apply app_inj_tail in Heq. destruct Heq as [-> _].
    rewrite app_nil_r. split; reflexivity.
  - exfalso. apply H, in_or_app. right. now left.
Qed.

Lemma add_then_remove_witness :
  fst (remove 9 (fst (add 9 [4; 5]%nat))) = [4; 5]%nat.
Proof.
  apply add_then_remove. simpl. intros [H|[H|[]]]; discriminate.
Defined.

(** X26: The model holds no application twice as long as none is added twice,
    which is what the debug assertion of [add] checks; [remove] keeps it so
    and then leaves no trace of the application. *)
Theorem no_duplicates_kept (application : nat) (applications_ : list nat) :
  NoDup applications_ ->
  (~ In application applications_ ->
     NoDup (fst (add application applications_))) /\
  NoDup (fst (remove application applications_)) /\
  ~ In application (fst (remove application applications_)).
Proof.
  intros Hnd. split.
  - intros Hnot. unfold add. simpl.
    apply NoDup_app; [assumption | repeat constructor; simpl; tauto |].
    intros x Hx [<-|[]]. contradiction.
  - unfold remove.
    pose proof (remove_first_spec application applications_ 0) as H.
    destruct (remove_first 0 application applications_) as [[j kept]|].
    + destruct H as (before & after & -> & Hb & -> & _). simpl.
      pose proof (NoDup_remove_1 _ _ _ Hnd) as H1.
      pose proof (NoDup_remove_2 _ _ _ Hnd) as H2.
      split; assumption.
    + simpl. split; assumption.
Qed.

Lemma no_duplicates_kept_witness :
  NoDup (fst (remove 5 [4; 5; 6]%nat)) /\ ~ In 5%nat (fst (remove 5 [4; 5; 6]%nat)).
Proof.
  destruct (no_duplicates_kept 5 [4; 5; 6]%nat) as (_ & H1 & H2).
  - repeat (apply NoDup_cons; [simpl; intuition discriminate|]). apply NoDup_nil.
  - split; assumption.
Defined.

End ApplicationListModelFacts.
